(** * Sepanda chat application: the chat route handlers, the title action
      and the system prompt, embedded from

      - [src/app/(chat)/actions.ts] (the server actions and, after the
        separator, the [POST] / [GET] / [DELETE] handlers of the chat route);
      - [src/lib/ai/prompts.ts].

    The handlers are asynchronous TypeScript functions that call a database
    layer, an authentication layer, a model SDK and a resumable-stream
    library.  They are embedded as computations in a state-and-exception
    monad: the state holds the module-level [globalStreamContext] and the
    trace of the outward calls made so far; the outcome of every outward call
    is read from an environment record. *)

From Stdlib Require Import String Ascii List ZArith Bool Lia DecimalString.
Import ListNotations.
Local Open Scope string_scope.

(** ** Strings of the source *)

Definition nl : string := String (ascii_of_nat 10) EmptyString.
Definition dq : string := String (ascii_of_nat 34) EmptyString.

(** [String.prototype.includes]: [includes needle hay] is [hay.includes(needle)]. *)
Fixpoint includes (needle hay : string) : bool :=
  if prefix needle hay then true
  else match hay with
       | EmptyString => false
       | String _ rest => includes needle rest
       end.

(** [hay] contains [needle] as a contiguous run of characters. *)
Definition Contains (needle hay : string) : Prop :=
  exists before after, hay = before ++ needle ++ after.

Module Prompts.

(** *** [src/lib/ai/prompts.ts] *)

Definition artifactsPrompt : string :=
  nl ++
  "Artifacts is a special user interface mode that helps users with writing, editing, and other content creation tasks. When artifact is open, it is on the right side of the screen, while the conversation is on the left side. When creating or updating documents, changes are reflected in real-time on the artifacts and visible to the user." ++ nl ++
  nl ++
  "When asked to write code, always use artifacts. When writing code, specify the language in the backticks, e.g. ```python`code here```. The default language is Python. Other languages are not yet supported, so let the user know if they request a different language." ++ nl ++
  nl ++
  "DO NOT UPDATE DOCUMENTS IMMEDIATELY AFTER CREATING THEM. WAIT FOR USER FEEDBACK OR REQUEST TO UPDATE IT." ++ nl ++
  nl ++
  "This is a guide for using artifacts tools: `createDocument` and `updateDocument`, which render content on a artifacts beside the conversation." ++ nl ++
  nl ++
  "**When to use `createDocument`:**" ++ nl ++
  "- For substantial content (>10 lines) or code" ++ nl ++
  "- For content users will likely save/reuse (emails, code, essays, etc.)" ++ nl ++
  "- When explicitly requested to create a document" ++ nl ++
  "- For when content contains a single code snippet" ++ nl ++
  nl ++
  "**When NOT to use `createDocument`:**" ++ nl ++
  "- For informational/explanatory content" ++ nl ++
  "- For conversational responses" ++ nl ++
  "- When asked to keep it in chat" ++ nl ++
  nl ++
  "**Using `updateDocument`:**" ++ nl ++
  "- Default to full document rewrites for major changes" ++ nl ++
  "- Use targeted updates only for specific, isolated changes" ++ nl ++
  "- Follow user instructions for which parts to modify" ++ nl ++
  nl ++
  "**When NOT to use `updateDocument`:**" ++ nl ++
  "- Immediately after creating a document" ++ nl ++
  nl ++
  "Do not update document right after creating it. Wait for user feedback or request to update it." ++ nl.

(** The Persian sentence quoted in both prompts. *)
Definition disclaimer : string :=
  "لطفاً قبل از شروع هر رژیم غذایی جدید، با پزشک یا متخصص تغذیه مشورت کنید".

Definition regularPrompt : string :=
  "You are a friendly assistant! Keep your responses concise and helpful. Important: When discussing health, diet, or medical topics, DO NOT include any disclaimers about consulting doctors or nutritionists. Specifically, never say " ++ dq ++ disclaimer ++ dq ++ " or any similar disclaimer in any language.".

Definition healthPrompt : string :=
  "You are a nutrition and health assistant. Provide helpful dietary information without any disclaimers or warnings about consulting healthcare professionals. Never include statements like " ++ dq ++ disclaimer ++ dq ++ " or any similar disclaimer in any language. When asked about diet or nutrition plans, follow this multi-step process:" ++ nl ++ nl ++
  "1. Ask the user questions one by one in separate messages, waiting for their response to each question before asking the next one. Essential questions include:" ++ nl ++
  "   - What are your health or weight goals?" ++ nl ++
  "   - Do you have any dietary restrictions or allergies?" ++ nl ++
  "   - How many meals per day do you prefer?" ++ nl ++
  "   - Do you have specific calorie targets?" ++ nl ++
  "   - Any foods you particularly enjoy or dislike?" ++ nl ++ nl ++
  "2. Only after receiving answers to all questions, generate the complete diet plan." ++ nl ++ nl ++
  "3. Present the final plan using a borderless table format with clean columnar layout, organizing content with clear columns for day number, breakfast, lunch, dinner, and snacks. Include specific meals for each day without overwhelming detail. Label each day numerically from Day 1 to Day 30.".

(** [RequestHints]: the four fields of [Geo] are [string | undefined]. *)
Record RequestHints := {
  latitude : option string;
  longitude : option string;
  city : option string;
  country : option string
}.

(** A template literal renders [undefined] as the word itself. *)
Definition interpolate (v : option string) : string :=
  match v with
  | Some s => s
  | None => "undefined"
  end.

Definition getRequestPromptFromHints (requestHints : RequestHints) : string :=
  "About the origin of user's request:" ++ nl ++
  "- lat: " ++ interpolate (latitude requestHints) ++ nl ++
  "- lon: " ++ interpolate (longitude requestHints) ++ nl ++
  "- city: " ++ interpolate (city requestHints) ++ nl ++
  "- country: " ++ interpolate (country requestHints) ++ nl.

Definition basePrompt : string :=
  regularPrompt ++ nl ++ nl ++ healthPrompt.

Definition systemPrompt (selectedChatModel : string)
    (requestHints : RequestHints) : string :=
  let requestPrompt := getRequestPromptFromHints requestHints in
  if String.eqb selectedChatModel "chat-model-reasoning" then
    basePrompt ++ nl ++ nl ++ requestPrompt
  else
    basePrompt ++ nl ++ nl ++ requestPrompt ++ nl ++ nl ++ artifactsPrompt.

End Prompts.

(** ** JavaScript values and whitespace *)

(** The dynamic values the title action defends against. *)
Inductive JSValue :=
| JSUndefined
| JSNull
| JSBoolean (b : bool)
| JSNumber (n : Z)
| JSString (s : string)
| JSObject.

(** [!s] for a string: the empty string is the only falsy one. *)
Definition string_truthy (s : string) : bool :=
  negb (String.eqb s "").

(** [!!v]. *)
Definition truthy (v : JSValue) : bool :=
  match v with
  | JSUndefined | JSNull => false
  | JSBoolean b => b
  | JSNumber n => negb (Z.eqb n 0)
  | JSString s => string_truthy s
  | JSObject => true
  end.

Definition bytes (l : list nat) : string :=
  string_of_list_ascii (map ascii_of_nat l).

(** The characters [String.prototype.trim] removes (ECMAScript WhiteSpace and
    LineTerminator), each in its UTF-8 encoding: TAB, LF, VT, FF, CR, SP,
    U+00A0, U+1680, U+2000..U+200A, U+2028, U+2029, U+202F, U+205F, U+3000,
    U+FEFF. *)
Definition whitespace : list string :=
  map bytes
    [ [9]; [10]; [11]; [12]; [13]; [32];
      [194; 160];
      [225; 154; 128];
      [226; 128; 128]; [226; 128; 129]; [226; 128; 130]; [226; 128; 131];
      [226; 128; 132]; [226; 128; 133]; [226; 128; 134]; [226; 128; 135];
      [226; 128; 136]; [226; 128; 137]; [226; 128; 138];
      [226; 128; 168]; [226; 128; 169]; [226; 128; 175];
      [226; 129; 159];
      [227; 128; 128];
      [239; 187; 191] ].

Definition string_rev (s : string) : string :=
  string_of_list_ascii (rev (list_ascii_of_string s)).

(** [strip p s] removes the prefix [p] of [s] when it is one. *)
Definition strip (p s : string) : option string :=
  if prefix p s then Some (substring (String.length p) (String.length s - String.length p) s)
  else None.

(** Removes one leading character of [set], if [s] starts with one. *)
Fixpoint strip_one (set : list string) (s : string) : option string :=
  match set with
  | [] => None
  | p :: more =>
      match strip p s with
      | Some rest => Some rest
      | None => strip_one more s
      end
  end.

Fixpoint strip_all (fuel : nat) (set : list string) (s : string) : string :=
  match fuel with
  | O => s
  | S fuel' =>
      match strip_one set s with
      | Some rest => strip_all fuel' set rest
      | None => s
      end
  end.

Definition trimStart (s : string) : string :=
  strip_all (String.length s) whitespace s.

Definition trimEnd (s : string) : string :=
  string_rev (strip_all (String.length s) (map string_rev whitespace) (string_rev s)).

(** [String.prototype.trim]. *)
Definition trim (s : string) : string :=
  trimEnd (trimStart s).

(** ** Outcomes of calls *)

(** What a [throw] carries: a [ChatSDKError] of the application (with its
    code, as in [new ChatSDKError('forbidden:chat')]) or any other [Error]. *)
Inductive Exn :=
| ChatSDKError (code : string) (message : string)
| Error (message : string).

Definition exn_message (e : Exn) : string :=
  match e with
  | ChatSDKError _ m => m
  | Error m => m
  end.

Inductive Result (A : Type) :=
| Ok (a : A)
| Throw (e : Exn).
Arguments Ok {A} a.
Arguments Throw {A} e.

(** ** Data model *)

Inductive VisibilityType := private | public.

Definition UserType := string.

Record User := {
  user_id : string;
  user_email : option string;
  user_type : UserType
}.

Record Session := { session_user : option User }.

Record Entitlements := { maxMessagesPerDay : Z }.

Record Chat := {
  chat_id : string;
  chat_userId : string;
  chat_title : string;
  chat_visibility : VisibilityType;
  chat_createdAt : Z
}.

Record Part := { part_type : string; part_text : string }.

Definition Attachment := string.

(** A row of the message table; [createdAt] in milliseconds since the epoch. *)
Record DBMessage := {
  msg_id : string;
  msg_chatId : string;
  msg_role : string;
  msg_parts : list Part;
  msg_attachments : list Attachment;
  msg_createdAt : Z
}.

(** A [UIMessage] of the SDK.  A field holds [None] when it is absent or not
    of the type the code tests for ([Array.isArray], [typeof ... === 'string']). *)
Record UIMessage := {
  ui_id : string;
  ui_role : string;
  ui_content : option string;
  ui_parts : option (list Part);
  ui_experimental_attachments : option (list Attachment)
}.

Record ResponseMessage := {
  rm_id : string;
  rm_role : string
}.

Record PostRequestBody := {
  body_id : string;
  body_message : UIMessage;
  body_selectedChatModel : string;
  body_selectedVisibilityType : VisibilityType
}.

(** The arguments [POST] passes to [streamText]. *)
Record StreamTextArgs := {
  st_model : string;
  st_system : string;
  st_messages : list UIMessage;
  st_maxSteps : Z;
  st_experimental_activeTools : list string;
  st_tools : list string
}.

(** JSON texts the handlers produce, kept as the value they serialise. *)
Inductive Json :=
| JsonOfMessage (m : DBMessage)
| JsonOfChat (c : option Chat)
| JsonOfErrorMessage (message : string).

Inductive DataStreamPart :=
| ModelPart (payload : string)
| DataPart (type : string) (message : Json)
| ErrorPart (message : string).

(** The content a data stream delivers, in order. *)
Definition DataStream := list DataStreamPart.

(** What the model run started by [streamText] produces: the parts merged
    into the data stream and, when the run finishes, the response messages
    handed to [onFinish] ([None]: the run failed). *)
Record Generation := {
  gen_parts : list DataStreamPart;
  gen_response : option (list ResponseMessage)
}.

Inductive ResumableStreamContext := StreamContext.

Inductive Body :=
| NullBody
| JsonBody (json : Json)
| StreamBody (stream : DataStream)
| ResumableBody (streamId : string) (makeStream : DataStream).

Inductive Response :=
| ErrorResponse (code : string)
| MkResponse (body : Body) (status : Z) (contentType : option string).

(** The parts of a [Request] the handlers read. *)
Record Request := {
  req_body : Result PostRequestBody;
  req_chatId : option string;
  req_id : option string;
  req_geo : Prompts.RequestHints
}.

(** ** Outward calls *)

Inductive Event :=
| ConsoleLog (label : string)
| ConsoleError (label : string) (e : Exn)
| Auth
| SelectUser (id : string)
| InsertUser (id email : string)
| GetMessageCountByUserId (id : string) (differenceInHours : Z)
| GetChatById (id : string)
| GenerateText (model : string) (prompt : UIMessage)
| SaveChat (id userId title : string) (visibility : VisibilityType)
| GetMessagesByChatId (id : string)
| SaveMessages (messages : list DBMessage)
| CreateStreamId (streamId chatId : string)
| StreamText (args : StreamTextArgs)
| CreateResumableStreamContext
| ResumableStream (streamId : string)
| GetStreamIdsByChatId (chatId : string)
| DeleteChatById (id : string).

(** The outcome of every outward call of one request. *)
Record Env := {
  entitlementsByUserType : UserType -> Entitlements;
  auth : Result (option Session);
  selectUser : string -> Result (list User);
  insertUser : string -> string -> Result unit;
  getMessageCountByUserId : string -> Z -> Result Z;
  getChatById : string -> Result (option Chat);
  generateText : UIMessage -> Result JSValue;
  saveChat : string -> string -> string -> VisibilityType -> Result unit;
  getMessagesByChatId : string -> Result (list DBMessage);
  saveMessages : list DBMessage -> Result unit;
  generateUUID : string;
  createStreamId : string -> string -> Result unit;
  streamText : StreamTextArgs -> Generation;
  getTrailingMessageId : list ResponseMessage -> Result (option string);
  appendResponseMessages :
    list UIMessage -> list ResponseMessage -> Result (list UIMessage);
  createResumableStreamContext : Result ResumableStreamContext;
  resumableStream : string -> Result bool;
  getStreamIdsByChatId : string -> Result (list string);
  deleteChatById : string -> Result (option Chat);
  now : Z;
  finishedAt : Z
}.

(** ** The monad of the handlers *)

Record World := {
  globalStreamContext : option ResumableStreamContext;
  trace : list Event
}.

Definition M (A : Type) : Type := World -> Result A * World.

Definition ret {A} (a : A) : M A := fun w => (Ok a, w).

Definition throw {A} (e : Exn) : M A := fun w => (Throw e, w).

Definition bind {A B} (m : M A) (k : A -> M B) : M B :=
  fun w =>
    match m w with
    | (Ok a, w') => k a w'
    | (Throw e, w') => (Throw e, w')
    end.

(** [try { m } catch (error) { h error }]. *)
Definition try_catch {A} (m : M A) (h : Exn -> M A) : M A :=
  fun w =>
    match m w with
    | (Ok a, w') => (Ok a, w')
    | (Throw e, w') => h e w'
    end.

(** The world after one more outward call. *)
Definition record (w : World) (ev : Event) : World :=
  {| globalStreamContext := globalStreamContext w;
     trace := trace w ++ [ev] |}.

Definition emit (ev : Event) : M unit :=
  fun w => (Ok tt, record w ev).

Definition lift {A} (r : Result A) : M A := fun w => (r, w).

(** An outward call: it is recorded, then it returns or throws. *)
Definition call {A} (ev : Event) (r : Result A) : M A :=
  bind (emit ev) (fun _ => lift r).

Definition getGlobal : M (option ResumableStreamContext) :=
  fun w => (Ok (globalStreamContext w), w).

Definition setGlobal (c : option ResumableStreamContext) : M unit :=
  fun w => (Ok tt, {| globalStreamContext := c; trace := trace w |}).

Declare Scope handler_scope.
Delimit Scope handler_scope with handler.
Notation "x <- m ;; k" := (bind m (fun x => k))
  (at level 61, m at next level, right associativity) : handler_scope.
Notation "m ;; k" := (bind m (fun _ => k))
  (at level 61, right associativity) : handler_scope.
Local Open Scope handler_scope.

Definition initialWorld : World :=
  {| globalStreamContext := None; trace := [] |}.

(** ** The handlers *)

Section Handlers.

Variable env : Env.

(** *** [src/app/(chat)/actions.ts], first part: the title action *)

Definition fallbackTitle : string := "گفتگوی جدید".

(** [!title || typeof title !== 'string' || title.trim() === ''] *)
Definition invalidTitle (title : JSValue) : bool :=
  negb (truthy title)
  || match title with JSString _ => false | _ => true end
  || match title with JSString s => String.eqb (trim s) "" | _ => false end.

Definition generateTitleFromUserMessage (message : UIMessage) : M string :=
  try_catch
    (emit (ConsoleLog "Generating title for message:") ;;
     title <- call (GenerateText "title-model" message)
                   (generateText env message) ;;
     emit (ConsoleLog "Generated title:") ;;
     if invalidTitle title then
       emit (ConsoleLog "Title was empty or invalid, using fallback") ;;
       ret fallbackTitle
     else
       match title with
       | JSString s => ret s
       | _ => ret fallbackTitle
       end)
    (fun error =>
       emit (ConsoleError "Error generating title:" error) ;;
       ret fallbackTitle).

(** *** Second part: the chat route *)

(** [new ChatSDKError(code).toResponse()]; the class is in [lib/errors]. *)
Definition toResponse (code : string) : Response := ErrorResponse code.

(** [getStreamContext]: the registry handle is created on first use and kept
    in [globalStreamContext]; a failure to create it leaves [null]. *)
Definition getStreamContext : M (option ResumableStreamContext) :=
  current <- getGlobal ;;
  match current with
  | Some _ => ret tt
  | None =>
      try_catch
        (created <- call CreateResumableStreamContext
                         (createResumableStreamContext env) ;;
         setGlobal (Some created))
        (fun error =>
           if includes "REDIS_URL" (exn_message error) then
             emit (ConsoleLog
               " > Resumable streams are disabled due to missing REDIS_URL")
           else
             emit (ConsoleError "" error))
  end ;;
  getGlobal.

Definition decimal (z : Z) : string := NilZero.string_of_int (Z.to_int z).

(** The block "Ensure user exists in the database": every failure in it is
    logged and dropped. *)
Definition ensureUser (u : User) : M unit :=
  try_catch
    (existingUser <- call (SelectUser (user_id u)) (selectUser env (user_id u)) ;;
     emit (ConsoleLog "User check result:") ;;
     match existingUser with
     | [] =>
         let email :=
           match user_email u with
           | Some e => if string_truthy e then e
                       else "user-" ++ decimal (now env) ++ "@example.com"
           | None => "user-" ++ decimal (now env) ++ "@example.com"
           end in
         emit (ConsoleLog "User not found in database, creating user:") ;;
         call (InsertUser (user_id u) email) (insertUser env (user_id u) email) ;;
         emit (ConsoleLog "User created successfully")
     | _ :: _ => ret tt
     end)
    (fun userError =>
       emit (ConsoleError "Error checking or creating user:" userError)).

(** The rows of the message table are passed to the SDK as [UIMessage]s
    (the [@ts-expect-error] in the source). *)
Definition asUIMessage (m : DBMessage) : UIMessage :=
  {| ui_id := msg_id m;
     ui_role := msg_role m;
     ui_content := None;
     ui_parts := Some (msg_parts m);
     ui_experimental_attachments := Some (msg_attachments m) |}.

(** [appendClientMessage] of the SDK: the new message replaces a last message
    with the same id, else it is appended. *)
Definition appendClientMessage (messages : list UIMessage)
    (message : UIMessage) : list UIMessage :=
  match rev messages with
  | lastMessage :: before =>
      if String.eqb (ui_id lastMessage) (ui_id message)
      then rev before ++ [message]
      else messages ++ [message]
  | [] => [message]
  end.

Definition allTools : list string :=
  ["getWeather"; "createDocument"; "updateDocument"; "requestSuggestions"].

(** The object literal passed to [streamText]. *)
Definition streamTextArgs (selectedChatModel : string)
    (requestHints : Prompts.RequestHints) (messages : list UIMessage)
    : StreamTextArgs :=
  {| st_model := selectedChatModel;
     st_system := Prompts.systemPrompt selectedChatModel requestHints;
     st_messages := messages;
     st_maxSteps := 5;
     st_experimental_activeTools :=
       if String.eqb selectedChatModel "chat-model-reasoning"
       then []
       else allTools;
     st_tools := allTools |}.

(** The [onFinish] callback of [streamText]. *)
Definition onFinish (session : Session) (id : string) (message : UIMessage)
    (response : list ResponseMessage) : M unit :=
  match session_user session with
  | None => ret tt
  | Some u =>
      if negb (string_truthy (user_id u)) then ret tt
      else
        try_catch
          (found <- lift (getTrailingMessageId env
                     (filter (fun m => String.eqb (rm_role m) "assistant")
                             response)) ;;
           assistantId <-
             match found with
             | Some a =>
                 if string_truthy a then ret a
                 else throw (Error "No assistant message found!")
             | None => throw (Error "No assistant message found!")
             end ;;
           appended <- lift (appendResponseMessages env [message] response) ;;
           emit (ConsoleLog "Raw assistantMessage:") ;;
           match nth_error appended 1 with
           | None =>
               throw (Error
                 "Cannot read properties of undefined (reading 'parts')")
           | Some assistantMessage =>
               parts <-
                 match ui_parts assistantMessage with
                 | Some (p :: ps) =>
                     emit (ConsoleLog "Using parts array from message") ;;
                     ret (p :: ps)
                 | _ =>
                     match ui_content assistantMessage with
                     | Some content =>
                         if string_truthy (trim content) then
                           emit (ConsoleLog "Created text part from content") ;;
                           ret [ {| part_type := "text";
                                    part_text := content |} ]
                         else
                           emit (ConsoleLog "Created empty text part") ;;
                           ret [ {| part_type := "text"; part_text := "" |} ]
                     | None =>
                         emit (ConsoleLog "Created empty text part") ;;
                         ret [ {| part_type := "text"; part_text := "" |} ]
                     end
                 end ;;
               let attachments :=
                 match ui_experimental_attachments assistantMessage with
                 | Some a => a
                 | None => []
                 end in
               emit (ConsoleLog "Formatted message to save:") ;;
               let row :=
                 {| msg_id := assistantId;
                    msg_chatId := id;
                    msg_role := ui_role assistantMessage;
                    msg_parts := parts;
                    msg_attachments := attachments;
                    msg_createdAt := finishedAt env |} in
               call (SaveMessages [row]) (saveMessages env [row]) ;;
               emit (ConsoleLog "Successfully saved assistant message")
           end)
          (fun error => emit (ConsoleError "Error in onFinish handler:" error))
  end.

Definition oops : string := "Oops, an error occurred!".

(** [createDataStream({ execute, onError })] of [POST].  [execute] starts the
    model run with [streamText] and merges its parts into the data stream;
    when the run finishes the SDK calls [onFinish].  An error of the run, or
    one thrown by [onFinish], reaches the data stream as an error part that
    carries the text [onError] returns. *)
Definition createChatStream (session : Session) (id : string)
    (message : UIMessage) (args : StreamTextArgs) : M DataStream :=
  emit (StreamText args) ;;
  let generation := streamText env args in
  match gen_response generation with
  | None => ret (gen_parts generation ++ [ErrorPart oops])%list
  | Some response =>
      try_catch
        (onFinish session id message response ;;
         ret (gen_parts generation))
        (fun _ => ret (gen_parts generation ++ [ErrorPart oops])%list)
  end.

Definition internalError : Response :=
  MkResponse
    (JsonBody
       (JsonOfErrorMessage "An unexpected error occurred. Please try again."))
    500 (Some "application/json").

(** The chat lookup of [POST]: a new chat is created with a generated title;
    an existing chat of another user ends the request ([Some response]). *)
Definition ensureChat (u : User) (requestBody : PostRequestBody)
    : M (option Response) :=
  let id := body_id requestBody in
  chat <- call (GetChatById id) (getChatById env id) ;;
  match chat with
  | None =>
      emit (ConsoleLog "Creating new chat with ID:") ;;
      try_catch
        (title <- generateTitleFromUserMessage (body_message requestBody) ;;
         call (SaveChat id (user_id u) title
                        (body_selectedVisibilityType requestBody))
              (saveChat env id (user_id u) title
                        (body_selectedVisibilityType requestBody)) ;;
         emit (ConsoleLog "Chat created successfully"))
        (fun error =>
           emit (ConsoleError "Error creating chat:" error) ;;
           throw error) ;;
      ret None
  | Some chat =>
      if negb (String.eqb (chat_userId chat) (user_id u))
      then ret (Some (toResponse "forbidden:chat"))
      else ret None
  end.

(** [POST] from the history lookup to the started model stream: the new
    stream id and the data stream. *)
Definition startStream (request : Request) (session : Session)
    (requestBody : PostRequestBody) : M (string * DataStream) :=
  let id := body_id requestBody in
  let message := body_message requestBody in
  let selectedChatModel := body_selectedChatModel requestBody in
  previousMessages <- call (GetMessagesByChatId id)
                           (getMessagesByChatId env id) ;;
  let messages :=
    appendClientMessage (map asUIMessage previousMessages) message in
  let requestHints := req_geo request in
  emit (ConsoleLog "Saving user message with ID:") ;;
  let row :=
    {| msg_id := ui_id message;
       msg_chatId := id;
       msg_role := "user";
       msg_parts := match ui_parts message with Some p => p | None => [] end;
       msg_attachments :=
         match ui_experimental_attachments message with
         | Some a => a
         | None => []
         end;
       msg_createdAt := now env |} in
  try_catch
    (call (SaveMessages [row]) (saveMessages env [row]) ;;
     emit (ConsoleLog "User message saved successfully"))
    (fun error =>
       emit (ConsoleError "Error saving user message:" error) ;;
       throw error) ;;
  let streamId := generateUUID env in
  call (CreateStreamId streamId id) (createStreamId env streamId id) ;;
  stream <- createChatStream session id message
              (streamTextArgs selectedChatModel requestHints messages) ;;
  ret (streamId, stream).

(** The end of [POST]: the stream goes through the registry when there is
    one, and is returned as it is otherwise. *)
Definition deliver (streamId : string) (stream : DataStream) : M Response :=
  streamContext <- getStreamContext ;;
  match streamContext with
  | Some _ =>
      resumed <- call (ResumableStream streamId)
                      (resumableStream env streamId) ;;
      ret (MkResponse
             (if resumed : bool then ResumableBody streamId stream
              else NullBody)
             200 None)
  | None => ret (MkResponse (StreamBody stream) 200 None)
  end.

(** The second [try] block of [POST] up to the started stream; [inl] is a
    response returned before that point. *)
Definition prepare (request : Request) (requestBody : PostRequestBody)
    : M (Response + string * DataStream) :=
  session <- call Auth (auth env) ;;
  match session with
  | None => ret (inl (toResponse "unauthorized:chat"))
  | Some session =>
      match session_user session with
      | None => ret (inl (toResponse "unauthorized:chat"))
      | Some u =>
          let userType := user_type u in
          ensureUser u ;;
          messageCount <- call (GetMessageCountByUserId (user_id u) 24)
                               (getMessageCountByUserId env (user_id u) 24) ;;
          if (messageCount >?
              maxMessagesPerDay (entitlementsByUserType env userType))%Z
          then ret (inl (toResponse "rate_limit:chat"))
          else
            stop <- ensureChat u requestBody ;;
            match stop with
            | Some response => ret (inl response)
            | None =>
                started <- startStream request session requestBody ;;
                ret (inr started)
            end
      end
  end.

Definition handle (request : Request) (requestBody : PostRequestBody)
    : M Response :=
  staged <- prepare request requestBody ;;
  match staged with
  | inl response => ret response
  | inr (streamId, stream) => deliver streamId stream
  end.

Definition POST (request : Request) : M Response :=
  match req_body request with
  | Throw error =>
      emit (ConsoleError "Error parsing request body:" error) ;;
      ret (toResponse "bad_request:api")
  | Ok requestBody =>
      try_catch (handle request requestBody)
        (fun error =>
           match error with
           | ChatSDKError code _ => ret (ErrorResponse code)
           | Error _ =>
               emit (ConsoleError "Unhandled error in POST handler:" error) ;;
               ret internalError
           end)
  end.

(** [differenceInSeconds] of date-fns on two instants in milliseconds: the
    number of full seconds between them, the fraction dropped. *)
Definition differenceInSeconds (dateLeft dateRight : Z) : Z :=
  Z.quot (dateLeft - dateRight) 1000.

Definition emptyDataStream : DataStream := [].

(** The branch of [GET] taken when [resumableStream] returned [null]. *)
Definition replay (chatId : string) (resumeRequestedAt : Z) : M Response :=
  messages <- call (GetMessagesByChatId chatId)
                   (getMessagesByChatId env chatId) ;;
  match rev messages with
  | [] => ret (MkResponse (StreamBody emptyDataStream) 200 None)
  | mostRecentMessage :: _ =>
      if negb (String.eqb (msg_role mostRecentMessage) "assistant") then
        ret (MkResponse (StreamBody emptyDataStream) 200 None)
      else
        let messageCreatedAt := msg_createdAt mostRecentMessage in
        if (differenceInSeconds resumeRequestedAt messageCreatedAt >? 15)%Z
        then ret (MkResponse (StreamBody emptyDataStream) 200 None)
        else
          let restoredStream :=
            [DataPart "append-message" (JsonOfMessage mostRecentMessage)] in
          ret (MkResponse (StreamBody restoredStream) 200 None)
  end.

(** [!value] for what [searchParams.get] returns. *)
Definition param (value : option string) : option string :=
  match value with
  | Some s => if string_truthy s then Some s else None
  | None => None
  end.

Definition GET (request : Request) : M Response :=
  streamContext <- getStreamContext ;;
  let resumeRequestedAt := now env in
  match streamContext with
  | None => ret (MkResponse NullBody 204 None)
  | Some _ =>
  match param (req_chatId request) with
  | None => ret (toResponse "bad_request:api")
  | Some chatId =>
  session <- call Auth (auth env) ;;
  match match session with Some s => session_user s | None => None end with
  | None => ret (toResponse "unauthorized:chat")
  | Some u =>
  looked <- try_catch
              (chat <- call (GetChatById chatId) (getChatById env chatId) ;;
               ret (inl chat))
              (fun _ => ret (inr (toResponse "not_found:chat"))) ;;
  match looked with
  | inr response => ret response
  | inl None => ret (toResponse "not_found:chat")
  | inl (Some chat) =>
  if match chat_visibility chat with private => true | public => false end
     && negb (String.eqb (chat_userId chat) (user_id u))
  then ret (toResponse "forbidden:chat")
  else
  streamIds <- call (GetStreamIdsByChatId chatId)
                    (getStreamIdsByChatId env chatId) ;;
  match param (hd_error (rev streamIds)) with
  | None => ret (toResponse "not_found:stream")
  | Some recentStreamId =>
  stream <- call (ResumableStream recentStreamId)
                 (resumableStream env recentStreamId) ;;
  if stream : bool
  then ret (MkResponse (ResumableBody recentStreamId emptyDataStream) 200 None)
  else replay chatId resumeRequestedAt
  end end end end end.

(** [Response.json(deletedChat)] throws a [TypeError] when the deletion
    handed back no row ([undefined] has no JSON text). *)
Definition DELETE (request : Request) : M Response :=
  match param (req_id request) with
  | None => ret (toResponse "bad_request:api")
  | Some id =>
      session <- call Auth (auth env) ;;
      match match session with Some s => session_user s | None => None end with
      | None => ret (toResponse "unauthorized:chat")
      | Some u =>
          chat <- call (GetChatById id) (getChatById env id) ;;
          match chat with
          | None =>
              throw (Error
                "Cannot read properties of undefined (reading 'userId')")
          | Some chat =>
              if negb (String.eqb (chat_userId chat) (user_id u))
              then ret (toResponse "forbidden:chat")
              else
                deletedChat <- call (DeleteChatById id)
                                    (deleteChatById env id) ;;
                match deletedChat with
                | Some _ =>
                    ret (MkResponse (JsonBody (JsonOfChat deletedChat)) 200
                                    (Some "application/json"))
                | None => throw (Error "Value is not JSON serializable")
                end
          end
      end
  end.

End Handlers.

(** ** A sample deployment, for running the handlers *)

Module Sample.

Definition alice : User :=
  {| user_id := "alice"; user_email := Some "alice@example.com";
     user_type := "regular" |}.

Definition bob : User :=
  {| user_id := "bob"; user_email := None; user_type := "guest" |}.

Definition hello : UIMessage :=
  {| ui_id := "m1"; ui_role := "user"; ui_content := Some "hello";
     ui_parts := Some [ {| part_type := "text"; part_text := "hello" |} ];
     ui_experimental_attachments := None |}.

Definition answer : UIMessage :=
  {| ui_id := "m2"; ui_role := "assistant"; ui_content := Some "hi";
     ui_parts := Some [ {| part_type := "text"; part_text := "hi" |} ];
     ui_experimental_attachments := None |}.

Definition aliceChat (visibility : VisibilityType) : Chat :=
  {| chat_id := "c1"; chat_userId := "alice"; chat_title := "t";
     chat_visibility := visibility; chat_createdAt := 0 |}.

Definition row (id role : string) (createdAt : Z) : DBMessage :=
  {| msg_id := id; msg_chatId := "c1"; msg_role := role;
     msg_parts := []; msg_attachments := []; msg_createdAt := createdAt |}.

Definition body (model : string) : PostRequestBody :=
  {| body_id := "c1"; body_message := hello;
     body_selectedChatModel := model;
     body_selectedVisibilityType := private |}.

Definition nowhere : Prompts.RequestHints :=
  {| Prompts.latitude := None; Prompts.longitude := None;
     Prompts.city := None; Prompts.country := None |}.

Definition post (model : string) : Request :=
  {| req_body := Ok (body model); req_chatId := None; req_id := None;
     req_geo := nowhere |}.

Definition malformed : Request :=
  {| req_body := Throw (Error "Unexpected token");
     req_chatId := None; req_id := None; req_geo := nowhere |}.

Definition resume : Request :=
  {| req_body := Throw (Error "no body");
     req_chatId := Some "c1"; req_id := None; req_geo := nowhere |}.

Definition remove : Request :=
  {| req_body := Throw (Error "no body");
     req_chatId := None; req_id := Some "c1"; req_geo := nowhere |}.

(** A deployment in which every call succeeds: [caller] is signed in and has
    sent [count] messages in the last day, the chat ["c1"] is [chat], its
    history is [history], the registry is available and [resumableStream]
    answers [live]. *)
Definition deployment (caller : option User) (count : Z)
    (chat : option Chat) (history : list DBMessage) (live : bool) : Env :=
  {| entitlementsByUserType :=
       fun t => {| maxMessagesPerDay :=
                     if String.eqb t "guest" then 20 else 100 |};
     auth := Ok (Some {| session_user := caller |});
     selectUser := fun _ => Ok [];
     insertUser := fun _ _ => Ok tt;
     getMessageCountByUserId := fun _ _ => Ok count;
     getChatById := fun _ => Ok chat;
     generateText := fun _ => Ok (JSString "A title");
     saveChat := fun _ _ _ _ => Ok tt;
     getMessagesByChatId := fun _ => Ok history;
     saveMessages := fun _ => Ok tt;
     generateUUID := "s1";
     createStreamId := fun _ _ => Ok tt;
     streamText := fun _ =>
       {| gen_parts := [ModelPart "hi"];
          gen_response := Some [ {| rm_id := "m2"; rm_role := "assistant" |} ] |};
     getTrailingMessageId := fun l =>
       Ok (match rev l with m :: _ => Some (rm_id m) | [] => None end);
     appendResponseMessages := fun l _ => Ok (l ++ [answer])%list;
     createResumableStreamContext := Ok StreamContext;
     resumableStream := fun _ => Ok live;
     getStreamIdsByChatId := fun _ => Ok ["s0"; "s1"];
     deleteChatById := fun _ => Ok chat;
     now := 100000;
     finishedAt := 101000 |}.

(** The same deployment without the pub/sub service. *)
Definition withoutRegistry (e : Env) : Env :=
  {| entitlementsByUserType := entitlementsByUserType e;
     auth := auth e;
     selectUser := selectUser e;
     insertUser := insertUser e;
     getMessageCountByUserId := getMessageCountByUserId e;
     getChatById := getChatById e;
     generateText := generateText e;
     saveChat := saveChat e;
     getMessagesByChatId := getMessagesByChatId e;
     saveMessages := saveMessages e;
     generateUUID := generateUUID e;
     createStreamId := createStreamId e;
     streamText := streamText e;
     getTrailingMessageId := getTrailingMessageId e;
     appendResponseMessages := appendResponseMessages e;
     createResumableStreamContext := Throw (Error "REDIS_URL is not set");
     resumableStream := resumableStream e;
     getStreamIdsByChatId := getStreamIdsByChatId e;
     deleteChatById := deleteChatById e;
     now := now e;
     finishedAt := finishedAt e |}.

(** The same deployment with a message table that rejects writes. *)
Definition withFailingSave (e : Env) : Env :=
  {| entitlementsByUserType := entitlementsByUserType e;
     auth := auth e;
     selectUser := selectUser e;
     insertUser := insertUser e;
     getMessageCountByUserId := getMessageCountByUserId e;
     getChatById := getChatById e;
     generateText := generateText e;
     saveChat := saveChat e;
     getMessagesByChatId := getMessagesByChatId e;
     saveMessages := fun rows =>
       match rows with
       | r :: _ => if String.eqb (msg_role r) "assistant"
                   then Throw (Error "connection lost") else Ok tt
       | [] => Ok tt
       end;
     generateUUID := generateUUID e;
     createStreamId := createStreamId e;
     streamText := streamText e;
     getTrailingMessageId := getTrailingMessageId e;
     appendResponseMessages := appendResponseMessages e;
     createResumableStreamContext := createResumableStreamContext e;
     resumableStream := resumableStream e;
     getStreamIdsByChatId := getStreamIdsByChatId e;
     deleteChatById := deleteChatById e;
     now := now e;
     finishedAt := finishedAt e |}.

(** The same deployment with no stream recorded for any chat. *)
Definition withoutStreams (e : Env) : Env :=
  {| entitlementsByUserType := entitlementsByUserType e;
     auth := auth e;
     selectUser := selectUser e;
     insertUser := insertUser e;
     getMessageCountByUserId := getMessageCountByUserId e;
     getChatById := getChatById e;
     generateText := generateText e;
     saveChat := saveChat e;
     getMessagesByChatId := getMessagesByChatId e;
     saveMessages := saveMessages e;
     generateUUID := generateUUID e;
     createStreamId := createStreamId e;
     streamText := streamText e;
     getTrailingMessageId := getTrailingMessageId e;
     appendResponseMessages := appendResponseMessages e;
     createResumableStreamContext := createResumableStreamContext e;
     resumableStream := resumableStream e;
     getStreamIdsByChatId := fun _ => Ok [];
     deleteChatById := deleteChatById e;
     now := now e;
     finishedAt := finishedAt e |}.

(** The same deployment with a title model that answers [answer]. *)
Definition withTitle (answer : Result JSValue) (e : Env) : Env :=
  {| entitlementsByUserType := entitlementsByUserType e;
     auth := auth e;
     selectUser := selectUser e;
     insertUser := insertUser e;
     getMessageCountByUserId := getMessageCountByUserId e;
     getChatById := getChatById e;
     generateText := fun _ => answer;
     saveChat := saveChat e;
     getMessagesByChatId := getMessagesByChatId e;
     saveMessages := saveMessages e;
     generateUUID := generateUUID e;
     createStreamId := createStreamId e;
     streamText := streamText e;
     getTrailingMessageId := getTrailingMessageId e;
     appendResponseMessages := appendResponseMessages e;
     createResumableStreamContext := createResumableStreamContext e;
     resumableStream := resumableStream e;
     getStreamIdsByChatId := getStreamIdsByChatId e;
     deleteChatById := deleteChatById e;
     now := now e;
     finishedAt := finishedAt e |}.

(** Bob resumes Alice's public chat; its last message is [last]. *)
Definition resumed (last : DBMessage) : Env :=
  deployment (Some bob) 3 (Some (aliceChat public)) [last] false.

End Sample.

(** ** Further code of the repository *)

(** *** [src/app/(chat)/actions.ts], first part: [deleteTrailingMessages]

    The action calls two queries of [lib/db/queries]; their outcomes are read
    from a record, the calls made are kept in a log. *)

Module Actions.

Inductive Call :=
| GetMessageById (id : string)
| DeleteMessagesByChatIdAfterTimestamp (chatId : string) (timestamp : Z).

Record Queries := {
  getMessageById : string -> Result (list DBMessage);
  deleteMessagesByChatIdAfterTimestamp : string -> Z -> Result unit
}.

Definition Action (A : Type) : Type := list Call -> Result A * list Call.

Definition query {A} (c : Call) (r : Result A) : Action A :=
  fun log => (r, (log ++ [c])%list).

Definition andThen {A B} (m : Action A) (k : A -> Action B) : Action B :=
  fun log =>
    match m log with
    | (Ok a, log') => k a log'
    | (Throw e, log') => (Throw e, log')
    end.

Definition raise {A} (e : Exn) : Action A := fun log => (Throw e, log).

(** [const [message] = await getMessageById({ id })] takes the first row, or
    [undefined] when there is none; reading [message.chatId] then throws. *)
Definition deleteTrailingMessages (db : Queries) (id : string) : Action unit :=
  andThen (query (GetMessageById id) (getMessageById db id)) (fun rows =>
  match rows with
  | [] =>
      raise (Error "Cannot read properties of undefined (reading 'chatId')")
  | message :: _ =>
      query (DeleteMessagesByChatIdAfterTimestamp (msg_chatId message)
                                                  (msg_createdAt message))
            (deleteMessagesByChatIdAfterTimestamp db (msg_chatId message)
                                                  (msg_createdAt message))
  end).

End Actions.

(** *** [src/lib/ai/prompts.ts]: [updateDocumentPrompt] *)

(** A template literal renders [null] as the word itself. *)
Definition interpolateNull (v : option string) : string :=
  match v with
  | Some s => s
  | None => "null"
  end.

(** [type] is an [ArtifactKind], a union of string literals. *)
Definition updateDocumentPrompt (currentContent : option string)
    (type : string) : string :=
  if String.eqb type "text" then
    "Improve the following contents of the document based on the given prompt."
      ++ nl ++ nl ++ interpolateNull currentContent ++ nl
  else if String.eqb type "code" then
    "Improve the following code snippet based on the given prompt."
      ++ nl ++ nl ++ interpolateNull currentContent ++ nl
  else if String.eqb type "sheet" then
    "Improve the following spreadsheet based on the given prompt."
      ++ nl ++ nl ++ interpolateNull currentContent ++ nl
  else "".

(** *** The font and direction helpers (second part of [prompts.ts]) *)

Definition LangDir (locale : string) : string :=
  if String.eqb locale "en" then "ltr"
  else if String.eqb locale "fa" then "rtl"
  else "ltr".

(** *** The code editor ([src/unnamed/part_000]): [areEqual] *)

Module CodeEditor.

Inductive Status := streaming | idle.

Inductive Direction := rtl | ltr.

(** The props of the editor.  [suggestions] is an array and [onSaveContent]
    a function: [!==] compares them by identity, so each is kept as the
    identity of the object. *)
Record EditorProps := {
  content : string;
  onSaveContent : nat;
  status : Status;
  isCurrentVersion : bool;
  currentVersionIndex : Z;
  suggestions : nat;
  dir : option Direction;
  lang : option string
}.

Definition status_eqb (a b : Status) : bool :=
  match a, b with
  | streaming, streaming | idle, idle => true
  | _, _ => false
  end.

Definition dir_eqb (a b : option Direction) : bool :=
  match a, b with
  | None, None | Some rtl, Some rtl | Some ltr, Some ltr => true
  | _, _ => false
  end.

Definition lang_eqb (a b : option string) : bool :=
  match a, b with
  | None, None => true
  | Some x, Some y => String.eqb x y
  | _, _ => false
  end.

Definition areEqual (prevProps nextProps : EditorProps) : bool :=
  if negb (Nat.eqb (suggestions prevProps) (suggestions nextProps)) then false
  else if negb (Z.eqb (currentVersionIndex prevProps)
                      (currentVersionIndex nextProps)) then false
  else if negb (Bool.eqb (isCurrentVersion prevProps)
                         (isCurrentVersion nextProps)) then false
  else if status_eqb (status prevProps) streaming
          && status_eqb (status nextProps) streaming then false
  else if negb (String.eqb (content prevProps) (content nextProps)) then false
  else if negb (dir_eqb (dir prevProps) (dir nextProps)) then false
  else if negb (lang_eqb (lang prevProps) (lang nextProps)) then false
  else true.

End CodeEditor.

(** ** Properties used to state the results *)

(** A string made of whitespace characters only (the empty one included). *)
Inductive OnlyWhitespace : string -> Prop :=
| blank_empty : OnlyWhitespace ""
| blank_more c s :
    In c whitespace -> OnlyWhitespace s -> OnlyWhitespace (c ++ s).

(** What the title model can hand back that is of no use as a title: a thrown
    error, a value that is not a string ([undefined] and [null] among them),
    a string of whitespace only. *)
Inductive Unusable : Result JSValue -> Prop :=
| unusable_throw e : Unusable (Throw e)
| unusable_not_string v : (forall s, v <> JSString s) -> Unusable (Ok v)
| unusable_blank s : OnlyWhitespace s -> Unusable (Ok (JSString s)).

(** The action after the model has answered (or thrown). *)
Definition titled (w : World) (message : UIMessage) : World :=
  record (record (record w (ConsoleLog "Generating title for message:"))
                 (GenerateText "title-model" message))
         (ConsoleLog "Generated title:").

(** The world after the outward calls [evs]. *)
Definition extend (w : World) (evs : list Event) : World :=
  {| globalStreamContext := globalStreamContext w;
     trace := trace w ++ evs |}.

(** The stream registry can be had: it is there already, or it can be
    created now. *)
Definition Available (env : Env) (w : World) : Prop :=
  (exists c, globalStreamContext w = Some c)
  \/ (exists c, createResumableStreamContext env = Ok c).

(** No stream registry: none is there and none can be created. *)
Definition Unavailable (env : Env) (w : World) : Prop :=
  globalStreamContext w = None
  /\ exists error, createResumableStreamContext env = Throw error.

(** The caller of the request, when [auth] yields a session with a user. *)
Definition caller (env : Env) : option User :=
  match auth env with
  | Ok (Some session) => session_user session
  | _ => None
  end.

(** An outward call that creates no chat, saves no message and invokes no
    model. *)
Definition leavesChatsAlone (ev : Event) : Prop :=
  match ev with
  | SaveChat _ _ _ _ | SaveMessages _ | StreamText _ | GenerateText _ _ =>
      False
  | _ => True
  end.

(** A request with a valid body from a signed-in caller whose messages of
    the last 24 hours exceed the daily maximum of the caller's tier. *)
Definition OverQuota (env : Env) (request : Request) : Prop :=
  exists requestBody u messageCount,
    req_body request = Ok requestBody
    /\ caller env = Some u
    /\ getMessageCountByUserId env (user_id u) 24 = Ok messageCount
    /\ (messageCount >
          maxMessagesPerDay (entitlementsByUserType env (user_type u)))%Z.

(** The [POST] requests the server handles one after the other, each with
    the outcomes of its own calls; the world goes from one to the next. *)
Fixpoint serve (requests : list (Env * Request)) (w : World)
    : list (Result Response) * World :=
  match requests with
  | [] => ([], w)
  | (env, request) :: later =>
      let (answer, w1) := POST env request w in
      let (answers, w2) := serve later w1 in
      (answer :: answers, w2)
  end.

(** The parts [onFinish] saves for the assistant message. *)
Definition assistantParts (assistantMessage : UIMessage) : list Part :=
  match ui_parts assistantMessage with
  | Some (p :: ps) => p :: ps
  | _ =>
      match ui_content assistantMessage with
      | Some content =>
          if string_truthy (trim content)
          then [ {| part_type := "text"; part_text := content |} ]
          else [ {| part_type := "text"; part_text := "" |} ]
      | None => [ {| part_type := "text"; part_text := "" |} ]
      end
  end.

(** The row [onFinish] saves for the assistant message. *)
Definition assistantRow (env : Env) (id assistantId : string)
    (assistantMessage : UIMessage) : DBMessage :=
  {| msg_id := assistantId;
     msg_chatId := id;
     msg_role := ui_role assistantMessage;
     msg_parts := assistantParts assistantMessage;
     msg_attachments :=
       match ui_experimental_attachments assistantMessage with
       | Some a => a
       | None => []
       end;
     msg_createdAt := finishedAt env |}.

(** Whatever [m] returns, all it does to the world is make outward calls
    that satisfy [P]; the stream registry handle is left as it was. *)
Definition emits {A : Type} (P : Event -> Prop) (m : M A) : Prop :=
  forall w, exists evs, snd (m w) = extend w evs /\ Forall P evs.

(** A condition on the arguments of every [streamText] call. *)
Definition invokedWith (Q : StreamTextArgs -> Prop) (ev : Event) : Prop :=
  match ev with
  | StreamText args => Q args
  | _ => True
  end.

(** ** Properties used to state further results *)

(** [m] can return [a]. *)
Definition returns {A : Type} (m : M A) (a : A) : Prop :=
  exists w w1, m w = (Ok a, w1).

(** [m] can throw [e]. *)
Definition throws {A : Type} (m : M A) (e : Exn) : Prop :=
  exists w w1, m w = (Throw e, w1).

(** Every outward call [m] makes satisfies [P] (the registry handle may
    change). *)
Definition traces {A : Type} (P : Event -> Prop) (m : M A) : Prop :=
  forall w, exists evs,
    trace (snd (m w)) = (trace w ++ evs)%list /\ Forall P evs.

(** The row [POST] saves for the user's message. *)
Definition userRow (env : Env) (requestBody : PostRequestBody) : DBMessage :=
  {| msg_id := ui_id (body_message requestBody);
     msg_chatId := body_id requestBody;
     msg_role := "user";
     msg_parts :=
       match ui_parts (body_message requestBody) with
       | Some p => p
       | None => []
       end;
     msg_attachments :=
       match ui_experimental_attachments (body_message requestBody) with
       | Some a => a
       | None => []
       end;
     msg_createdAt := now env |}.

(** The chat of a request is the caller's to write to: it does not exist
    yet, or it exists and the caller owns it. *)
Definition OwnOrNew (env : Env) (u : User) (requestBody : PostRequestBody)
    : Prop :=
  getChatById env (body_id requestBody) = Ok None
  \/ exists chat,
       getChatById env (body_id requestBody) = Ok (Some chat)
       /\ chat_userId chat = user_id u.

(** All that [POST] checks and stores before it starts the model. *)
Definition Cleared (env : Env) (request : Request) : Prop :=
  exists requestBody u messageCount,
    req_body request = Ok requestBody
    /\ caller env = Some u
    /\ getMessageCountByUserId env (user_id u) 24 = Ok messageCount
    /\ (messageCount <=
          maxMessagesPerDay (entitlementsByUserType env (user_type u)))%Z
    /\ OwnOrNew env u requestBody
    /\ saveMessages env [userRow env requestBody] = Ok tt
    /\ createStreamId env (generateUUID env) (body_id requestBody) = Ok tt.

(** How [POST] creates a chat and asks for its title: only for a chat that
    does not exist, under the id of the request, for the caller, with a
    non-empty title and the visibility selected. *)
Definition createsFor (env : Env) (request : Request) (ev : Event) : Prop :=
  match ev with
  | SaveChat id userId title visibility =>
      exists requestBody u,
        req_body request = Ok requestBody
        /\ caller env = Some u
        /\ getChatById env (body_id requestBody) = Ok None
        /\ id = body_id requestBody
        /\ userId = user_id u
        /\ title <> ""
        /\ visibility = body_selectedVisibilityType requestBody
  | GenerateText model prompt =>
      exists requestBody,
        req_body request = Ok requestBody
        /\ getChatById env (body_id requestBody) = Ok None
        /\ model = "title-model"
        /\ prompt = body_message requestBody
  | _ => True
  end.

(** How [POST] saves messages: one row at a time, in the chat of the request;
    the row is the user's message, or a row with an id, at least one part
    and the time of the end of the model run. *)
Definition savesFor (env : Env) (request : Request) (ev : Event) : Prop :=
  match ev with
  | SaveMessages rows =>
      exists requestBody row,
        req_body request = Ok requestBody
        /\ rows = [row]
        /\ msg_chatId row = body_id requestBody
        /\ (row = userRow env requestBody
            \/ (msg_id row <> ""
                /\ msg_parts row <> []
                /\ msg_createdAt row = finishedAt env))
  | _ => True
  end.

(** Whatever [m] returns satisfies [Q]. *)
Definition yields {A : Type} (Q : A -> Prop) (m : M A) : Prop :=
  forall a, returns m a -> Q a.

(** [m] makes the outward call [ev], whatever else it does. *)
Definition calls {A : Type} (ev : Event) (m : M A) : Prop :=
  forall w, exists evs,
    trace (snd (m w)) = (trace w ++ evs)%list /\ In ev evs.

(** The responses of [POST]: an error of the application, the generic 500,
    or a response with status 200 that carries the data stream, the
    resumable stream or no body. *)
Definition answerOfPOST (response : Response) : Prop :=
  (exists code, response = ErrorResponse code)
  \/ response = internalError
  \/ (exists stream, response = MkResponse (StreamBody stream) 200 None)
  \/ (exists streamId stream,
        response = MkResponse (ResumableBody streamId stream) 200 None)
  \/ response = MkResponse NullBody 200 None.

(** The data streams [GET] builds itself: the empty one, or the last message
    of a chat the caller may read, an assistant message, as one part. *)
Definition replayOfGET (env : Env) (request : Request) (stream : DataStream)
    : Prop :=
  stream = []
  \/ exists chatId u chat earlier m,
       param (req_chatId request) = Some chatId
       /\ caller env = Some u
       /\ getChatById env chatId = Ok (Some chat)
       /\ (chat_visibility chat = public \/ chat_userId chat = user_id u)
       /\ getMessagesByChatId env chatId = Ok (earlier ++ [m])%list
       /\ msg_role m = "assistant"
       /\ stream = [DataPart "append-message" (JsonOfMessage m)].

(** How [DELETE] deletes: the chat named by the request, found, and owned by
    the caller. *)
Definition deletesOwn (env : Env) (request : Request) (ev : Event) : Prop :=
  match ev with
  | DeleteChatById id =>
      exists u chat,
        param (req_id request) = Some id
        /\ caller env = Some u
        /\ getChatById env id = Ok (Some chat)
        /\ chat_userId chat = user_id u
  | InsertUser _ _ | SaveChat _ _ _ _ | SaveMessages _ | CreateStreamId _ _
  | StreamText _ | GenerateText _ _ => False
  | _ => True
  end.

(** How [ensureUser] inserts: the user of the session, not found by the
    lookup, with a non-empty email. *)
Definition insertsMissing (env : Env) (u : User) (ev : Event) : Prop :=
  match ev with
  | InsertUser id email =>
      selectUser env (user_id u) = Ok [] /\ id = user_id u /\ email <> ""
  | SelectUser id => id = user_id u
  | ConsoleLog _ | ConsoleError _ _ => True
  | _ => False
  end.

(** How [GET] reads the stream ids and the messages of a chat: those of the
    chat named by the request, for a signed-in caller who may read it. *)
Definition readsFor (env : Env) (request : Request) (ev : Event) : Prop :=
  match ev with
  | GetStreamIdsByChatId id | GetMessagesByChatId id =>
      exists u chat,
        param (req_chatId request) = Some id
        /\ caller env = Some u
        /\ getChatById env id = Ok (Some chat)
        /\ (chat_visibility chat = public \/ chat_userId chat = user_id u)
  | _ => True
  end.

(** An outward call that writes nothing to the database and invokes no
    model. *)
Definition writesNothing (ev : Event) : Prop :=
  match ev with
  | InsertUser _ _ | SaveChat _ _ _ _ | SaveMessages _ | CreateStreamId _ _
  | StreamText _ | GenerateText _ _ | DeleteChatById _ => False
  | _ => True
  end.

(** ** Strings *)

Lemma append_assoc (a b c : string) : (a ++ b) ++ c = a ++ b ++ c.
Proof.
  induction a as [|x a IH]; simpl; [reflexivity|].
  now rewrite IH.
Qed.

Lemma append_empty_r (a : string) : a ++ "" = a.
Proof.
  induction a as [|x a IH]; simpl; [reflexivity|].
  now rewrite IH.
Qed.

Lemma length_append (a b : string) :
  String.length (a ++ b) = String.length a + String.length b.
Proof.
  induction a as [|x a IH]; simpl; [reflexivity|].
  now rewrite IH.
Qed.

Lemma Contains_here (s rest : string) : Contains s (s ++ rest).
Proof. exists "", rest. reflexivity. Qed.

Lemma Contains_after (s front hay : string) :
  Contains s hay -> Contains s (front ++ hay).
Proof.
  intros (b & a & ->). exists (front ++ b), a.
  now rewrite append_assoc.
Qed.

Lemma Contains_before (s hay back : string) :
  Contains s hay -> Contains s (hay ++ back).
Proof.
  intros (b & a & ->). exists b, (a ++ back).
  now rewrite !append_assoc.
Qed.

Lemma prefix_append (p s : string) : prefix p (p ++ s) = true.
Proof.
  induction p as [|x p IH]; simpl.
  - now destruct s.
  - destruct (ascii_dec x x) as [_|ne]; [exact IH | now destruct ne].
Qed.

Lemma substring_whole (s : string) : substring 0 (String.length s) s = s.
Proof.
  induction s as [|x s IH]; simpl; [reflexivity|].
  now rewrite IH.
Qed.

Lemma substring_skip (p s : string) (n : nat) :
  substring (String.length p) n (p ++ s) = substring 0 n s.
Proof.
  induction p as [|x p IH]; simpl; [reflexivity | exact IH].
Qed.

Lemma strip_append (p s : string) : strip p (p ++ s) = Some s.
Proof.
  unfold strip. rewrite prefix_append, length_append, substring_skip.
  replace (String.length p + String.length s - String.length p)
    with (String.length s) by lia.
  now rewrite substring_whole.
Qed.

(** ** Whitespace and [trim] *)

Lemma whitespace_nonempty (c : string) :
  In c whitespace -> 1 <= String.length c.
Proof.
  intros H. vm_compute in H.
  repeat (destruct H as [<- | H]; [simpl; lia|]).
  contradiction.
Qed.

Lemma strip_one_skip (q : string) (more : list string) (hay : string) :
  prefix q hay = false -> strip_one (q :: more) hay = strip_one more hay.
Proof. intros H. cbn [strip_one]. unfold strip. now rewrite H. Qed.

Lemma strip_one_hit (c : string) (more : list string) (s : string) :
  strip_one (c :: more) (c ++ s) = Some s.
Proof. cbn [strip_one]. now rewrite strip_append. Qed.

(** Passes the characters that do not start the string, up to the one that
    does. *)
Ltac skip_to_hit :=
  first
    [ simple apply strip_one_hit
    | etransitivity; [simple apply strip_one_skip; reflexivity|];
      skip_to_hit ].

Lemma strip_one_whitespace (c s : string) :
  In c whitespace -> strip_one whitespace (c ++ s) = Some s.
Proof.
  intros H. unfold whitespace. simpl map.
  vm_compute in H.
  repeat (destruct H as [<- | H]; [skip_to_hit|]).
  contradiction.
Qed.

Lemma strip_all_blank (s : string) :
  OnlyWhitespace s ->
  forall fuel, String.length s <= fuel -> strip_all fuel whitespace s = "".
Proof.
  induction 1 as [|c s Hc Hs IH]; intros fuel Hfuel.
  - destruct fuel; reflexivity.
  - pose proof (whitespace_nonempty c Hc) as Hlen.
    rewrite length_append in Hfuel.
    destruct fuel as [|fuel]; [lia|].
    cbn [strip_all]. rewrite (strip_one_whitespace c s Hc).
    apply IH. lia.
Qed.

Lemma trim_blank (s : string) : OnlyWhitespace s -> trim s = "".
Proof.
  intros H. unfold trim, trimStart.
  rewrite (strip_all_blank s H) by lia. reflexivity.
Qed.

(** ** The title action *)

Lemma fallbackTitle_nonempty : fallbackTitle <> "".
Proof. discriminate. Qed.

Lemma string_truthy_nonempty (s : string) : string_truthy s = true -> s <> "".
Proof.
  unfold string_truthy. destruct (String.eqb_spec s ""); [discriminate|auto].
Qed.

Lemma invalidTitle_string (s : string) :
  invalidTitle (JSString s) =
  negb (string_truthy s) || String.eqb (trim s) "".
Proof. unfold invalidTitle. cbn. now rewrite orb_false_r. Qed.

Lemma invalidTitle_other (v : JSValue) :
  (forall s, v <> JSString s) -> invalidTitle v = true.
Proof.
  intros Hv. unfold invalidTitle.
  destruct v; try (now rewrite orb_true_r).
  now destruct (Hv s).
Qed.

Lemma generateTitle_run (env : Env) (message : UIMessage) (w : World) :
  generateTitleFromUserMessage env message w =
  match generateText env message with
  | Ok title =>
      if invalidTitle title then
        (Ok fallbackTitle,
         record (titled w message)
                (ConsoleLog "Title was empty or invalid, using fallback"))
      else
        (Ok match title with JSString s => s | _ => fallbackTitle end,
         titled w message)
  | Throw error =>
      (Ok fallbackTitle,
       record (record (record w (ConsoleLog "Generating title for message:"))
                      (GenerateText "title-model" message))
              (ConsoleError "Error generating title:" error))
  end.
Proof.
  unfold generateTitleFromUserMessage, try_catch, bind, call, emit, lift, ret.
  cbn. destruct (generateText env message) as [title|error]; cbn.
  - destruct (invalidTitle title); [reflexivity|].
    now destruct title.
  - reflexivity.
Qed.

(** A usable title is returned as it is. *)
Lemma generateTitle_usable (env : Env) (message : UIMessage) (w : World)
    (s : string) :
  generateText env message = Ok (JSString s) ->
  trim s <> "" ->
  exists w', generateTitleFromUserMessage env message w = (Ok s, w').
Proof.
  intros Hgen Htrim.
  rewrite generateTitle_run, Hgen, invalidTitle_string.
  assert (s <> "") as Hs by (intros ->; apply Htrim; reflexivity).
  unfold string_truthy.
  destruct (String.eqb_spec s ""); [contradiction|].
  destruct (String.eqb_spec (trim s) ""); [contradiction|].
  cbn. eauto.
Qed.

(** C9.  [generateTitleFromUserMessage] returns, for every message and every
    behaviour of the title model, and what it returns is a non-empty string;
    when the model call throws, or yields a value that is missing, not a
    string, or whitespace only, it returns the fallback title. *)
Theorem generateTitle_total_nonempty :
  forall (env : Env) (message : UIMessage) (w : World),
  exists (title : string) (w' : World),
    generateTitleFromUserMessage env message w = (Ok title, w')
    /\ title <> ""
    /\ (Unusable (generateText env message) -> title = fallbackTitle).
Proof.
  intros env message w. rewrite generateTitle_run.
  destruct (generateText env message) as [v|e] eqn:Hgen.
  - destruct (invalidTitle v) eqn:Hv.
    + do 2 eexists; split; [reflexivity|].
      split; [apply fallbackTitle_nonempty | reflexivity].
    + do 2 eexists; split; [reflexivity|].
      destruct v as [ | |b|n|s| ];
        try (rewrite invalidTitle_other in Hv by discriminate; discriminate).
      rewrite invalidTitle_string in Hv.
      apply orb_false_iff in Hv as [Hs Hblank].
      apply negb_false_iff in Hs.
      split; [now apply string_truthy_nonempty|].
      intros Hun. inversion Hun as [ |v Hv|s' Hs']; subst.
      * now destruct (Hv s).
      * rewrite (trim_blank s Hs') in Hblank. discriminate.
  - do 2 eexists; split; [reflexivity|].
    split; [apply fallbackTitle_nonempty | reflexivity].
Qed.

(** ** The system prompt and the active tools *)

(** The arguments of [streamText] by model: with ['chat-model-reasoning'] no
    tool is active and the system prompt is the regular prompt, the health
    prompt and the request prompt; with any other model the four tools are
    active and the artifacts prompt is appended to that same prompt. *)
Lemma streamTextArgs_by_model :
  forall (selectedChatModel : string) (hints : Prompts.RequestHints)
         (messages : list UIMessage),
  let args := streamTextArgs selectedChatModel hints messages in
  let plain :=
    Prompts.regularPrompt ++ nl ++ nl ++ Prompts.healthPrompt ++ nl ++ nl
      ++ Prompts.getRequestPromptFromHints hints in
  Contains Prompts.regularPrompt (st_system args)
  /\ Contains Prompts.healthPrompt (st_system args)
  /\ (selectedChatModel = "chat-model-reasoning" ->
        st_experimental_activeTools args = []
        /\ st_system args = plain)
  /\ (selectedChatModel <> "chat-model-reasoning" ->
        st_experimental_activeTools args =
          ["getWeather"; "createDocument"; "updateDocument";
           "requestSuggestions"]
        /\ st_system args = plain ++ nl ++ nl ++ Prompts.artifactsPrompt).
Proof.
  intros model hints messages args plain.
  subst args plain. unfold streamTextArgs, Prompts.systemPrompt.
  cbn [st_system st_experimental_activeTools].
  unfold Prompts.basePrompt.
  assert (Hreg : forall rest,
    Contains Prompts.regularPrompt
      ((Prompts.regularPrompt ++ nl ++ nl ++ Prompts.healthPrompt) ++ rest)).
  { intros rest. rewrite append_assoc. apply Contains_here. }
  assert (Hhealth : forall rest,
    Contains Prompts.healthPrompt
      ((Prompts.regularPrompt ++ nl ++ nl ++ Prompts.healthPrompt) ++ rest)).
  { intros rest. rewrite !append_assoc.
    do 3 apply Contains_after. apply Contains_here. }
  destruct (String.eqb_spec model "chat-model-reasoning") as [Hm|Hm].
  - split; [apply Hreg|]. split; [apply Hhealth|].
    split; [intros _|intros Hm'; contradiction].
    split; [reflexivity|]. now rewrite !append_assoc.
  - split; [apply Hreg|]. split; [apply Hhealth|].
    split; [intros Hm'; contradiction|intros _].
    split; [reflexivity|]. now rewrite !append_assoc.
Qed.

(** ** Whole seconds *)

Lemma differenceInSeconds_over_15 (dateLeft dateRight : Z) :
  (differenceInSeconds dateLeft dateRight >? 15)%Z = true
  <-> (16000 <= dateLeft - dateRight)%Z.
Proof.
  unfold differenceInSeconds.
  rewrite Z.gtb_ltb, Z.ltb_lt.
  set (d := (dateLeft - dateRight)%Z).
  pose proof (Z.quot_rem' d 1000) as Hd.
  split; intros H.
  - destruct (Z_lt_le_dec d 0) as [Hneg|Hpos].
    + pose proof (Z.quot_opp_l d 1000 ltac:(lia)) as Ho.
      pose proof (Z.quot_pos (- d) 1000 ltac:(lia) ltac:(lia)). lia.
    + pose proof (Z.rem_bound_pos d 1000 Hpos ltac:(lia)). lia.
  - assert (0 <= d)%Z as Hpos by lia.
    pose proof (Z.rem_bound_pos d 1000 Hpos ltac:(lia)). lia.
Qed.

(** ** Running the monad *)

Arguments Prompts.systemPrompt : simpl never.
Arguments streamTextArgs : simpl never.
Arguments includes : simpl never.
Arguments decimal : simpl never.

Lemma record_as_extend (w : World) (ev : Event) : record w ev = extend w [ev].
Proof. reflexivity. Qed.

Lemma extend_extend (w : World) (a b : list Event) :
  extend (extend w a) b = extend w (a ++ b).
Proof. unfold extend. cbn. now rewrite app_assoc. Qed.

Lemma extend_nil (w : World) : extend w [] = w.
Proof. destruct w. unfold extend. cbn. now rewrite app_nil_r. Qed.

(** Brings a chain of [record]s into one [extend]. *)
Ltac worlds :=
  rewrite ?record_as_extend, ?extend_extend; cbn [app].

Lemma bind_ok {A B} (m : M A) (k : A -> M B) (w w1 : World) (a : A) :
  m w = (Ok a, w1) -> bind m k w = k a w1.
Proof. intros H. unfold bind. now rewrite H. Qed.

Lemma bind_throw {A B} (m : M A) (k : A -> M B) (w w1 : World) (e : Exn) :
  m w = (Throw e, w1) -> bind m k w = (Throw e, w1).
Proof. intros H. unfold bind. now rewrite H. Qed.

Lemma call_run {A} (ev : Event) (r : Result A) (w : World) :
  call ev r w = (r, record w ev).
Proof. reflexivity. Qed.

(** [getStreamContext] with a registry at hand. *)
Lemma getStreamContext_available (env : Env) (w : World) :
  Available env w ->
  exists c evs,
    getStreamContext env w =
      (Ok (Some c), {| globalStreamContext := Some c;
                       trace := trace w ++ evs |})
    /\ Forall leavesChatsAlone evs.
Proof.
  intros [[c Hc]|[c Hc]]; unfold getStreamContext, getGlobal, bind.
  - rewrite Hc. cbn. exists c, []. rewrite app_nil_r.
    destruct w as [g t]. cbn in *. subst g. split; [reflexivity|constructor].
  - destruct (globalStreamContext w) as [c'|] eqn:Hg.
    + cbn. exists c', []. rewrite app_nil_r.
      destruct w as [g t]. cbn in *. subst g. split; [reflexivity|constructor].
    + unfold try_catch, call, bind, emit, lift, setGlobal. rewrite Hc. cbn.
      exists c, [CreateResumableStreamContext].
      split; [reflexivity|]. repeat constructor.
Qed.

(** [getStreamContext] without one. *)
Lemma getStreamContext_unavailable (env : Env) (w : World) :
  Unavailable env w ->
  exists evs,
    getStreamContext env w = (Ok None, extend w evs)
    /\ Forall leavesChatsAlone evs.
Proof.
  intros [Hg [e He]].
  unfold getStreamContext, getGlobal, bind. rewrite Hg.
  unfold try_catch, call, bind, emit, lift, setGlobal. rewrite He. cbn.
  destruct (includes "REDIS_URL" (exn_message e)); cbn; worlds.
  - eexists. split; [rewrite Hg; reflexivity|]. repeat constructor.
  - eexists. split; [rewrite Hg; reflexivity|]. repeat constructor.
Qed.

Lemma ensureUser_run (env : Env) (u : User) (w : World) :
  exists evs,
    ensureUser env u w = (Ok tt, extend w evs)
    /\ Forall leavesChatsAlone evs.
Proof.
  unfold ensureUser, try_catch, bind, call, emit, lift, ret. cbn.
  destruct (selectUser env (user_id u)) as [[|existing more]|e]; cbn.
  - match goal with
    | |- context [insertUser env ?i ?m] =>
        destruct (insertUser env i m) as [[]|e]
    end; cbn; worlds;
      (eexists; split; [reflexivity|]; repeat constructor).
  - worlds. eexists; split; [reflexivity|]; repeat constructor.
  - worlds. eexists; split; [reflexivity|]; repeat constructor.
Qed.

(** ** [POST]: validation, authentication, quota *)

(** [POST] never lets an exception out: its [catch] turns every one into a
    response. *)
Lemma POST_never_throws (env : Env) (request : Request) (w : World) :
  exists response w', POST env request w = (Ok response, w').
Proof.
  unfold POST. destruct (req_body request) as [requestBody|error].
  - unfold try_catch.
    destruct (handle env request requestBody w) as [[response|[code m|m]] w1].
    + do 2 eexists; reflexivity.
    + do 2 eexists; reflexivity.
    + do 2 eexists; reflexivity.
  - do 2 eexists; reflexivity.
Qed.

(** C8.  A [POST] whose body does not parse or does not match the schema is
    answered [bad_request:api] with nothing done but the error log: no call
    to [auth], no change of state.  A [POST] with a valid body and no
    authenticated session is answered [unauthorized:chat] with nothing done
    but the call to [auth]: no quota check, nothing persisted. *)
Theorem POST_rejects_before_work :
  forall (env : Env) (request : Request) (w : World),
    (forall error,
       req_body request = Throw error ->
       POST env request w =
         (Ok (ErrorResponse "bad_request:api"),
          record w (ConsoleError "Error parsing request body:" error)))
    /\ (forall requestBody,
          req_body request = Ok requestBody ->
          caller env = None ->
          (exists session, auth env = Ok session) ->
          POST env request w =
            (Ok (ErrorResponse "unauthorized:chat"), record w Auth)).
Proof.
  intros env request w. split.
  - intros error Hbody. unfold POST. rewrite Hbody. reflexivity.
  - intros requestBody Hbody Hcaller [session Hauth].
    unfold POST. rewrite Hbody.
    unfold handle, prepare, caller in *.
    unfold try_catch, bind. rewrite call_run, Hauth in *.
    destruct session as [session|]; [|reflexivity].
    now rewrite Hcaller.
Qed.

(** One request over the quota: it is answered [rate_limit:chat], and on the
    way no chat is created, no message is saved and no model is invoked. *)
Lemma POST_over_quota :
  forall (env : Env) (request : Request) (requestBody : PostRequestBody)
         (u : User) (messageCount : Z) (w : World),
    req_body request = Ok requestBody ->
    caller env = Some u ->
    getMessageCountByUserId env (user_id u) 24 = Ok messageCount ->
    (messageCount >
       maxMessagesPerDay (entitlementsByUserType env (user_type u)))%Z ->
    exists evs,
      POST env request w = (Ok (ErrorResponse "rate_limit:chat"), extend w evs)
      /\ Forall leavesChatsAlone evs.
Proof.
  intros env request requestBody u messageCount w Hbody Hcaller Hcount Hover.
  unfold POST. rewrite Hbody.
  unfold handle, prepare, caller in *.
  destruct (auth env) as [[session|]|e]; try discriminate.
  destruct (ensureUser_run env u (record w Auth)) as (evs & Hrun & Hevs).
  unfold try_catch. unfold bind at 1. unfold bind at 1. rewrite call_run.
  cbv beta iota. rewrite Hcaller.
  rewrite (bind_ok _ _ _ _ _ Hrun).
  unfold bind at 1. rewrite call_run, Hcount. cbv beta iota.
  apply Z.gt_lt, Z.gtb_lt in Hover. rewrite Hover.
  unfold toResponse, ret. worlds.
  eexists. split; [reflexivity|].
  constructor; [exact I|].
  apply Forall_app. split; [exact Hevs|]. repeat constructor.
Qed.

(** C2 (as the code has it).  A [POST] whose body parses and matches the
    schema, from an authenticated user whose message count over the last 24
    hours exceeds the daily maximum of the user's tier, is answered
    [rate_limit:chat], and on the way no chat is created, no message is saved
    and no model is invoked.  So of any requests of this kind handled one
    after the other, each while the count exceeds the maximum, every one is
    answered [rate_limit:chat], and together they create no chat, save no
    message and invoke no model. *)
Theorem POST_over_quota_every_request :
  forall (requests : list (Env * Request)) (w : World),
    Forall (fun served => OverQuota (fst served) (snd served)) requests ->
    exists evs,
      serve requests w =
        (map (fun _ => Ok (ErrorResponse "rate_limit:chat")) requests,
         extend w evs)
      /\ Forall leavesChatsAlone evs.
Proof.
  intros requests. induction requests as [|[env request] later IH];
    intros w Hall.
  - exists []. rewrite extend_nil. split; [reflexivity|constructor].
  - inversion Hall as [|served rest Hfirst Hlater]; subst.
    destruct Hfirst as (requestBody & u & messageCount
                        & Hbody & Hcaller & Hcount & Hover).
    destruct (POST_over_quota env request requestBody u messageCount w
                Hbody Hcaller Hcount Hover) as (evs & Hrun & Hevs).
    destruct (IH (extend w evs) Hlater) as (evs' & Hrun' & Hevs').
    exists (evs ++ evs')%list. cbn [serve map].
    rewrite Hrun, Hrun', extend_extend.
    split; [reflexivity|]. now apply Forall_app.
Qed.

(** ** [GET] and [DELETE] *)

Lemma caller_session (env : Env) (u : User) :
  caller env = Some u ->
  exists session,
    auth env = Ok (Some session) /\ session_user session = Some u.
Proof.
  unfold caller. destruct (auth env) as [[session|]|e]; try discriminate.
  intros H. now exists session.
Qed.

Lemma string_neq_eqb (a b : string) : a <> b -> String.eqb a b = false.
Proof. intros H. now apply String.eqb_neq. Qed.

Lemma param_truthy (v : option string) (s : string) :
  param v = Some s -> s <> "".
Proof.
  unfold param. destruct v as [s'|]; [|discriminate].
  destruct (string_truthy s') eqn:H; [|discriminate].
  intros [= <-]. now apply string_truthy_nonempty.
Qed.

Lemma param_last (front : list string) (s : string) :
  s <> "" -> param (hd_error (rev (front ++ [s]))) = Some s.
Proof.
  intros Hs. rewrite rev_unit. cbn. unfold string_truthy.
  now rewrite (string_neq_eqb _ _ Hs).
Qed.

(** Runs [GET] up to the chat lookup, for an authenticated request with a
    [chatId] and the registry at hand. *)
Ltac enter_GET Havail Hparam Hcaller :=
  let c := fresh "c" in
  let evs := fresh "evs" in
  let Hctx := fresh "Hctx" in
  let session := fresh "session" in
  let Hauth := fresh "Hauth" in
  let Huser := fresh "Huser" in
  unfold GET;
  destruct (getStreamContext_available _ _ Havail) as (c & evs & Hctx & _);
  rewrite (bind_ok _ _ _ _ _ Hctx); cbv beta iota;
  rewrite Hparam;
  destruct (caller_session _ _ Hcaller) as (session & Hauth & Huser);
  unfold bind at 1; rewrite call_run, Hauth; cbv beta iota;
  rewrite Huser;
  unfold bind at 1; unfold try_catch at 1; unfold bind at 1;
  rewrite call_run.

(** C4 (as the code has it).  A [GET] is answered 204 with no body when no
    stream registry can be had.  With a registry, a [chatId] and an
    authenticated caller, it is answered [not_found:chat] when the chat does
    not exist (or its lookup fails), and [not_found:stream] when the chat
    exists, the caller may read it (it is public or the caller's own) and it
    has no stream ids. *)
Theorem GET_not_found :
  forall (env : Env) (request : Request) (w : World),
    (Unavailable env w ->
     fst (GET env request w) = Ok (MkResponse NullBody 204 None))
    /\ (forall chatId u,
          Available env w ->
          param (req_chatId request) = Some chatId ->
          caller env = Some u ->
          (getChatById env chatId = Ok None
           \/ exists error, getChatById env chatId = Throw error) ->
          fst (GET env request w) = Ok (ErrorResponse "not_found:chat"))
    /\ (forall chatId u chat,
          Available env w ->
          param (req_chatId request) = Some chatId ->
          caller env = Some u ->
          getChatById env chatId = Ok (Some chat) ->
          (chat_visibility chat = public \/ chat_userId chat = user_id u) ->
          getStreamIdsByChatId env chatId = Ok [] ->
          fst (GET env request w) = Ok (ErrorResponse "not_found:stream")).
Proof.
  intros env request w. split; [|split].
  - intros Hun.
    destruct (getStreamContext_unavailable _ _ Hun) as (evs & Hctx & _).
    unfold GET. now rewrite (bind_ok _ _ _ _ _ Hctx).
  - intros chatId u Havail Hparam Hcaller Hchat.
    enter_GET Havail Hparam Hcaller.
    destruct Hchat as [Hchat|[error Hchat]]; now rewrite Hchat.
  - intros chatId u chat Havail Hparam Hcaller Hchat Hread Hids.
    enter_GET Havail Hparam Hcaller.
    rewrite Hchat. cbv beta iota.
    assert ((match chat_visibility chat with
             | private => true | public => false end
             && negb (String.eqb (chat_userId chat) (user_id u))) = false)
      as Hgate.
    { destruct Hread as [->| ->]; [reflexivity|].
      rewrite String.eqb_refl. now rewrite andb_false_r. }
    unfold ret at 1. cbv beta iota. rewrite Hgate.
    unfold bind at 1. rewrite call_run, Hids. reflexivity.
Qed.

(** Runs [GET] up to the call of [resumableStream], for a chat the caller
    may read. *)
Ltac pass_gate Hchat Hread u :=
  rewrite Hchat; cbv beta iota;
  unfold ret at 1; cbv beta iota;
  let Hgate := fresh "Hgate" in
  match goal with
  | |- context [(?v && negb (String.eqb ?a ?b))%bool] =>
      assert ((v && negb (String.eqb a b))%bool = false) as Hgate
        by (destruct Hread as [->| ->];
            [reflexivity | rewrite String.eqb_refl; now rewrite andb_false_r])
  end;
  rewrite Hgate.

(** C1 (as the code has it).  Take a [GET] that gets as far as the registry
    and finds the stream concluded ([resumableStream] gives [null]).  If the
    last message of the chat is an assistant message and fewer than 16
    seconds lie between its creation and the resume request (the difference
    in whole seconds is at most 15), the response is a data stream with that
    message once, as one ['append-message'] part.  If the chat has no
    message, or the last one is not an assistant message or is 16 seconds old
    or more, the response is an empty data stream.  Both have status 200. *)
Theorem GET_replays_recent_answer :
  forall (env : Env) (request : Request) (w : World) (chatId : string)
         (u : User) (chat : Chat) (earlierIds : list string)
         (recentStreamId : string) (messages : list DBMessage),
    Available env w ->
    param (req_chatId request) = Some chatId ->
    caller env = Some u ->
    getChatById env chatId = Ok (Some chat) ->
    (chat_visibility chat = public \/ chat_userId chat = user_id u) ->
    getStreamIdsByChatId env chatId = Ok (earlierIds ++ [recentStreamId])%list ->
    recentStreamId <> "" ->
    resumableStream env recentStreamId = Ok false ->
    getMessagesByChatId env chatId = Ok messages ->
    (forall earlier m,
       messages = (earlier ++ [m])%list ->
       msg_role m = "assistant" ->
       (now env - msg_createdAt m < 16000)%Z ->
       fst (GET env request w) =
         Ok (MkResponse
               (StreamBody [DataPart "append-message" (JsonOfMessage m)])
               200 None))
    /\ (messages = []
        \/ (exists earlier m,
              messages = (earlier ++ [m])%list
              /\ (msg_role m <> "assistant"
                  \/ (16000 <= now env - msg_createdAt m)%Z)) ->
        fst (GET env request w) = Ok (MkResponse (StreamBody []) 200 None)).
Proof.
  intros env request w chatId u chat earlierIds recentStreamId messages
    Havail Hparam Hcaller Hchat Hread Hids Hrecent Hgone Hmessages.
  assert (Hrun : exists w1,
    GET env request w = replay env chatId (now env) w1).
  { enter_GET Havail Hparam Hcaller. pass_gate Hchat Hread u.
    unfold bind at 1. rewrite call_run, Hids. cbv beta iota.
    rewrite (param_last _ _ Hrecent).
    unfold bind at 1. rewrite call_run, Hgone. cbv beta iota.
    eexists. reflexivity. }
  destruct Hrun as [w1 ->].
  unfold replay. split.
  - intros earlier m -> Hrole Hage.
    unfold bind at 1. rewrite call_run, Hmessages. cbv beta iota.
    rewrite rev_unit, Hrole, String.eqb_refl. cbn [negb].
    destruct (differenceInSeconds (now env) (msg_createdAt m) >? 15)%Z eqn:Hd.
    + apply differenceInSeconds_over_15 in Hd. lia.
    + reflexivity.
  - intros Hwhy.
    unfold bind at 1. rewrite call_run, Hmessages. cbv beta iota.
    destruct Hwhy as [->|(earlier & m & -> & Hwhy)]; [reflexivity|].
    rewrite rev_unit.
    destruct (String.eqb_spec (msg_role m) "assistant") as [Hrole|Hrole];
      [|reflexivity].
    destruct Hwhy as [Hwhy|Hage]; [contradiction|].
    apply differenceInSeconds_over_15 in Hage. cbn [negb]. now rewrite Hage.
Qed.

(** At the end of a run of [GET] past the gate: the answer is not the
    refusal, and the stream ids were asked for. *)
Ltac passed :=
  cbv beta iota; unfold ret, toResponse;
  let H := fresh in
  intros H; injection H as <- <-;
  split;
  [ discriminate
  | cbn [trace record]; rewrite <- ?app_assoc;
    eexists; split; [reflexivity|];
    apply in_or_app; right; cbn; tauto ].

(** Two different outcomes, once the last step is run. *)
Ltac differ :=
  cbv beta iota; unfold ret, toResponse; cbn [fst]; discriminate.

(** C3 (as the code has it).  For an authenticated caller and an existing
    chat owned by someone else: [DELETE] is answered [forbidden:chat];
    [GET], with the registry at hand, is answered [forbidden:chat] when the
    chat is private; when the chat is public [GET] is not answered
    [forbidden:chat] and goes on to look up the stream ids of the chat;
    [POST], with a valid body and the caller within the daily quota, is
    answered [forbidden:chat]. *)
Theorem foreign_chat_is_forbidden :
  forall (env : Env) (request : Request) (w : World) (u : User) (chat : Chat),
    caller env = Some u ->
    chat_userId chat <> user_id u ->
    (forall id,
       param (req_id request) = Some id ->
       getChatById env id = Ok (Some chat) ->
       fst (DELETE env request w) = Ok (ErrorResponse "forbidden:chat"))
    /\ (forall chatId,
          Available env w ->
          param (req_chatId request) = Some chatId ->
          getChatById env chatId = Ok (Some chat) ->
          chat_visibility chat = private ->
          fst (GET env request w) = Ok (ErrorResponse "forbidden:chat"))
    /\ (forall chatId answer w',
          Available env w ->
          param (req_chatId request) = Some chatId ->
          getChatById env chatId = Ok (Some chat) ->
          chat_visibility chat = public ->
          GET env request w = (answer, w') ->
          answer <> Ok (ErrorResponse "forbidden:chat")
          /\ exists evs,
               trace w' = (trace w ++ evs)%list
               /\ In (GetStreamIdsByChatId chatId) evs)
    /\ (forall requestBody messageCount,
          req_body request = Ok requestBody ->
          getMessageCountByUserId env (user_id u) 24 = Ok messageCount ->
          (messageCount <=
             maxMessagesPerDay (entitlementsByUserType env (user_type u)))%Z ->
          getChatById env (body_id requestBody) = Ok (Some chat) ->
          fst (POST env request w) = Ok (ErrorResponse "forbidden:chat")).
Proof.
  intros env request w u chat Hcaller Hother.
  pose proof (string_neq_eqb _ _ Hother) as Hneq.
  split; [|split; [|split]].
  - intros id Hparam Hchat.
    destruct (caller_session _ _ Hcaller) as (session & Hauth & Huser).
    unfold DELETE. rewrite Hparam.
    unfold bind at 1. rewrite call_run, Hauth. cbv beta iota. rewrite Huser.
    unfold bind at 1. rewrite call_run, Hchat. cbv beta iota.
    now rewrite Hneq.
  - intros chatId Havail Hparam Hchat Hprivate.
    enter_GET Havail Hparam Hcaller.
    rewrite Hchat. cbv beta iota. unfold ret at 1. cbv beta iota.
    now rewrite Hprivate, Hneq.
  - intros chatId answer w' Havail Hparam Hchat Hpublic.
    pose proof (or_introl (chat_userId chat = user_id u) Hpublic) as Hread.
    enter_GET Havail Hparam Hcaller. pass_gate Hchat Hread u.
    unfold bind at 1. rewrite call_run.
    destruct (getStreamIdsByChatId env chatId) as [streamIds|e];
      cbv beta iota; [|passed].
    destruct (param (hd_error (rev streamIds))) as [recentStreamId|];
      [|passed].
    unfold bind at 1. rewrite call_run.
    destruct (resumableStream env recentStreamId) as [[|]|e];
      cbv beta iota; [passed| |passed].
    unfold replay, bind. rewrite call_run.
    destruct (getMessagesByChatId env chatId) as [messages|e];
      cbv beta iota; [|passed].
    destruct (rev messages) as [|mostRecentMessage earlier]; [passed|].
    destruct (String.eqb (msg_role mostRecentMessage) "assistant");
      cbn [negb]; [|passed].
    destruct (differenceInSeconds (now env) (msg_createdAt mostRecentMessage)
              >? 15)%Z; passed.
  - intros requestBody messageCount Hbody Hcount Hquota Hchat.
    destruct (caller_session _ _ Hcaller) as (session & Hauth & Huser).
    unfold POST. rewrite Hbody. unfold handle, prepare.
    unfold try_catch. unfold bind at 1. unfold bind at 1.
    rewrite call_run, Hauth. cbv beta iota. rewrite Huser.
    destruct (ensureUser_run env u (record w Auth)) as (evs & Hrun & _).
    rewrite (bind_ok _ _ _ _ _ Hrun).
    unfold bind at 1. rewrite call_run, Hcount. cbv beta iota.
    assert ((messageCount >?
             maxMessagesPerDay (entitlementsByUserType env (user_type u)))%Z
            = false) as Hwithin.
    { rewrite Z.gtb_ltb. apply Z.ltb_ge. exact Hquota. }
    rewrite Hwithin.
    unfold ensureChat. unfold bind at 1. unfold bind at 1.
    rewrite call_run, Hchat. cbv beta iota.
    now rewrite Hneq.
Qed.

(** ** [onFinish] and the data stream of [POST] *)

Arguments trim : simpl never.

Ltac find_event :=
  cbn [In]; repeat first [left; reflexivity | right].

(** [onFinish] returns whatever happens inside it; a failed save leaves its
    error in the log. *)
Lemma onFinish_run (env : Env) (session : Session) (id : string)
    (message : UIMessage) (response : list ResponseMessage) (w : World) :
  exists evs,
    onFinish env session id message response w = (Ok tt, extend w evs)
    /\ (forall rows e,
          In (SaveMessages rows) evs ->
          saveMessages env rows = Throw e ->
          In (ConsoleError "Error in onFinish handler:" e) evs).
Proof.
  unfold onFinish.
  destruct (session_user session) as [u|];
    [|exists []; rewrite extend_nil; split; [reflexivity|intros ? ? []]].
  destruct (string_truthy (user_id u));
    [|exists []; rewrite extend_nil; split; [reflexivity|intros ? ? []]].
  cbn [negb].
  unfold call; unfold try_catch, bind, lift, emit, ret, throw.
  destruct (getTrailingMessageId env _) as [[a|]|e0]; cbv beta iota zeta;
    [destruct (string_truthy a)| |]; cbv beta iota zeta;
    try (worlds; eexists; split; [reflexivity|];
         intros rows e' Hin Hsave; cbn in Hin;
         repeat (destruct Hin as [Hin|Hin]; [discriminate|]);
         contradiction).
  destruct (appendResponseMessages env _ _) as [appended|e0]; cbv beta iota zeta;
    [destruct (nth_error appended 1) as [am|]|]; cbv beta iota zeta;
    try (worlds; eexists; split; [reflexivity|];
         intros rows e' Hin Hsave; cbn in Hin;
         repeat (destruct Hin as [Hin|Hin]; [discriminate|]);
         contradiction).
  destruct (ui_parts am) as [[|p ps]|];
    [destruct (ui_content am) as [content|];
       [destruct (string_truthy (trim content))|]
    | 
    | destruct (ui_content am) as [content|];
       [destruct (string_truthy (trim content))|] ];
    cbv beta iota zeta;
    match goal with
    | |- context [saveMessages env ?rows] =>
        destruct (saveMessages env rows) as [[]|e0] eqn:Hs
    end; cbv beta iota zeta; worlds;
    (eexists; split; [reflexivity|];
     intros rows e' Hin Hsave; cbn in Hin;
     repeat (destruct Hin as [Hin|Hin];
             [first [discriminate | injection Hin as <-]|]);
     try contradiction;
     first [congruence
           | assert (e' = e0) as -> by congruence; find_event]).
Qed.

(** ** What a computation emits *)

Section Emits.

Context {P : Event -> Prop}.

Lemma emits_ret {A} (a : A) : emits P (ret a).
Proof. intros w. exists []. now rewrite extend_nil. Qed.

Lemma emits_throw {A} (e : Exn) : emits P (@throw A e).
Proof. intros w. exists []. now rewrite extend_nil. Qed.

Lemma emits_lift {A} (r : Result A) : emits P (lift r).
Proof. intros w. exists []. now rewrite extend_nil. Qed.

Lemma emits_emit (ev : Event) : P ev -> emits P (emit ev).
Proof. intros H w. exists [ev]. split; [reflexivity|]. now constructor. Qed.

Lemma emits_call {A} (ev : Event) (r : Result A) :
  P ev -> emits P (call ev r).
Proof. intros H w. exists [ev]. split; [reflexivity|]. now constructor. Qed.

Lemma emits_bind {A B} (m : M A) (k : A -> M B) :
  emits P m -> (forall a, emits P (k a)) -> emits P (bind m k).
Proof.
  intros Hm Hk w. destruct (Hm w) as (evs & Hw & Hevs).
  unfold bind. destruct (m w) as [[a|e] w1]; cbn in Hw; subst w1.
  - destruct (Hk a (extend w evs)) as (evs' & Hw' & Hevs').
    exists (evs ++ evs')%list. rewrite Hw', extend_extend.
    split; [reflexivity|]. now apply Forall_app.
  - now exists evs.
Qed.

Lemma emits_try_catch {A} (m : M A) (h : Exn -> M A) :
  emits P m -> (forall e, emits P (h e)) -> emits P (try_catch m h).
Proof.
  intros Hm Hh w. destruct (Hm w) as (evs & Hw & Hevs).
  unfold try_catch. destruct (m w) as [[a|e] w1]; cbn in Hw; subst w1.
  - now exists evs.
  - destruct (Hh e (extend w evs)) as (evs' & Hw' & Hevs').
    exists (evs ++ evs')%list. rewrite Hw', extend_extend.
    split; [reflexivity|]. now apply Forall_app.
Qed.

End Emits.

(** Walks through a computation built from the operations above; what is
    left are the conditions on the calls it makes. *)
Ltac emits_walk :=
  repeat first
    [ apply emits_ret
    | apply emits_throw
    | apply emits_lift
    | apply emits_emit
    | apply emits_call
    | apply emits_bind; [|intros ?]
    | apply emits_try_catch; [|intros ?]
    | match goal with
      | |- emits _ (match ?x with _ => _ end) => destruct x
      | |- emits _ (let _ := _ in _) => cbv zeta
      end ].

Section Invocations.

Variable env : Env.
Variable Q : StreamTextArgs -> Prop.

Lemma emits_generateTitle (message : UIMessage) :
  emits (invokedWith Q) (generateTitleFromUserMessage env message).
Proof. unfold generateTitleFromUserMessage. emits_walk; exact I. Qed.

Lemma emits_ensureUser (u : User) : emits (invokedWith Q) (ensureUser env u).
Proof. unfold ensureUser. emits_walk; exact I. Qed.

Lemma emits_onFinish (session : Session) (id : string) (message : UIMessage)
    (response : list ResponseMessage) :
  emits (invokedWith Q) (onFinish env session id message response).
Proof. unfold onFinish. emits_walk; exact I. Qed.

Lemma emits_ensureChat (u : User) (requestBody : PostRequestBody) :
  emits (invokedWith Q) (ensureChat env u requestBody).
Proof.
  unfold ensureChat. emits_walk; exact I.
Qed.

Lemma emits_createChatStream (session : Session) (id : string)
    (message : UIMessage) (args : StreamTextArgs) :
  Q args ->
  emits (invokedWith Q) (createChatStream env session id message args).
Proof.
  intros HQ. unfold createChatStream. emits_walk; try first [exact I | exact HQ].
  apply emits_onFinish.
Qed.

End Invocations.

(** The arguments [POST] builds for [streamText]. *)
Lemma emits_prepare (env : Env) (request : Request)
    (requestBody : PostRequestBody) :
  emits
    (invokedWith (fun args => exists messages,
       args = streamTextArgs (body_selectedChatModel requestBody)
                             (req_geo request) messages))
    (prepare env request requestBody).
Proof.
  unfold prepare. emits_walk; try exact I.
  - cbn. eexists. reflexivity.
  - apply emits_onFinish.
Qed.

Lemma registry_cases (env : Env) (w : World) :
  Available env w \/ Unavailable env w.
Proof.
  unfold Available, Unavailable.
  destruct (globalStreamContext w) as [c|]; [left; left; now exists c|].
  destruct (createResumableStreamContext env) as [c|e].
  - left; right; now exists c.
  - right; split; [reflexivity|now exists e].
Qed.

Lemma bind_inv {A B} (m : M A) (k : A -> M B) (w w' : World) (b : B) :
  bind m k w = (Ok b, w') ->
  exists a w1, m w = (Ok a, w1) /\ k a w1 = (Ok b, w').
Proof.
  unfold bind. destruct (m w) as [[a|e] w1]; [|discriminate].
  intros H. now exists a, w1.
Qed.

(** A request that [prepare] takes as far as the started stream: the stream
    id is the fresh one, it has been registered for the chat, and the stream
    is the data stream of a model run. *)
Lemma prepare_started (env : Env) (request : Request)
    (requestBody : PostRequestBody) (w w1 : World) (streamId : string)
    (stream : DataStream) :
  prepare env request requestBody w = (Ok (inr (streamId, stream)), w1) ->
  streamId = generateUUID env
  /\ exists session messages w0,
       In (CreateStreamId streamId (body_id requestBody)) (trace w0)
       /\ createChatStream env session (body_id requestBody)
            (body_message requestBody)
            (streamTextArgs (body_selectedChatModel requestBody)
                            (req_geo request) messages) w0
          = (Ok stream, w1).
Proof.
  unfold prepare. intros H.
  apply bind_inv in H as (session & wa & _ & H).
  destruct session as [session|]; [|discriminate].
  destruct (session_user session) as [u|]; [|discriminate].
  apply bind_inv in H as (? & wb & _ & H).
  apply bind_inv in H as (messageCount & wc & _ & H).
  destruct (_ >? _)%Z; [discriminate|].
  apply bind_inv in H as (stop & wd & _ & H).
  destruct stop as [response|]; [discriminate|].
  apply bind_inv in H as ([sid str] & we & H & Hret).
  injection Hret as -> -> ->.
  unfold startStream in H. cbv zeta in H.
  apply bind_inv in H as (previousMessages & wf & _ & H).
  apply bind_inv in H as (? & wg & _ & H).
  apply bind_inv in H as (? & wh & _ & H).
  apply bind_inv in H as (? & wi & Hid & H).
  apply bind_inv in H as (str & wj & H & Hret).
  injection Hret as <- <- <-.
  split; [reflexivity|].
  exists session, (appendClientMessage (map asUIMessage previousMessages)
                                       (body_message requestBody)), wi.
  split; [|exact H].
  rewrite call_run in Hid. injection Hid as _ <-.
  cbn. apply in_or_app. right. now left.
Qed.

(** The data stream of a model run: the parts of the run, with one error part
    at the end when the run failed. *)
Lemma createChatStream_content (env : Env) (session : Session) (id : string)
    (message : UIMessage) (args : StreamTextArgs) (w w1 : World)
    (stream : DataStream) :
  createChatStream env session id message args w = (Ok stream, w1) ->
  (stream = gen_parts (streamText env args)
   \/ (gen_response (streamText env args) = None
       /\ stream = (gen_parts (streamText env args) ++ [ErrorPart oops])%list))
  /\ exists evs, w1 = extend w (StreamText args :: evs).
Proof.
  unfold createChatStream. unfold bind at 1. cbv beta iota zeta.
  unfold emit at 1. cbv beta iota.
  destruct (gen_response (streamText env args)) as [response|].
  - destruct (onFinish_run env session id message response
                (record w (StreamText args))) as (evs & Hrun & _).
    unfold try_catch. rewrite (bind_ok _ _ _ _ _ Hrun). unfold ret.
    intros [= <- <-]. split; [now left|].
    exists evs. now worlds.
  - unfold ret. intros [= <- <-]. split; [right; now split|].
    now exists [].
Qed.

Lemma leavesChatsAlone_invokedWith (Q : StreamTextArgs -> Prop) (ev : Event) :
  leavesChatsAlone ev -> invokedWith Q ev.
Proof. destruct ev; cbn; auto. contradiction. Qed.

(** The end of [POST] never throws on its own account: what [deliver]
    returns or throws is decided by [resumableStream]. *)
Lemma deliver_run (env : Env) (streamId : string) (stream : DataStream)
    (w : World) :
  exists evs w',
    trace w' = (trace w ++ evs)%list
    /\ Forall leavesChatsAlone evs
    /\ ((Unavailable env w
         /\ deliver env streamId stream w =
              (Ok (MkResponse (StreamBody stream) 200 None), w'))
        \/ (Available env w
            /\ deliver env streamId stream w =
                 (match resumableStream env streamId with
                  | Ok true =>
                      Ok (MkResponse (ResumableBody streamId stream) 200 None)
                  | Ok false => Ok (MkResponse NullBody 200 None)
                  | Throw e => Throw e
                  end, w'))).
Proof.
  destruct (registry_cases env w) as [Havail|Hun].
  - destruct (getStreamContext_available _ _ Havail) as (c & evs & Hctx & Hevs).
    unfold deliver. rewrite (bind_ok _ _ _ _ _ Hctx). cbv beta iota.
    unfold bind at 1. rewrite call_run.
    exists (evs ++ [ResumableStream streamId])%list. eexists.
    split; [|split; [|right; split; [exact Havail|]]].
    2: { apply Forall_app. split; [exact Hevs|]. repeat constructor. }
    2: { destruct (resumableStream env streamId) as [[|]|e]; reflexivity. }
    cbn. now rewrite app_assoc.
  - destruct (getStreamContext_unavailable _ _ Hun) as (evs & Hctx & Hevs).
    unfold deliver. rewrite (bind_ok _ _ _ _ _ Hctx). cbv beta iota.
    exists evs. eexists.
    split; [|split; [exact Hevs|left; split; [exact Hun|reflexivity]]].
    reflexivity.
Qed.

(** Every [streamText] call of a [POST] has the arguments built from the
    selected model and the request hints. *)
Lemma POST_invocations (env : Env) (request : Request)
    (requestBody : PostRequestBody) (w : World) :
  req_body request = Ok requestBody ->
  exists evs,
    trace (snd (POST env request w)) = (trace w ++ evs)%list
    /\ Forall
         (invokedWith (fun args => exists messages,
            args = streamTextArgs (body_selectedChatModel requestBody)
                                  (req_geo request) messages))
         evs.
Proof.
  intros Hbody. unfold POST. rewrite Hbody.
  destruct (emits_prepare env request requestBody w) as (evs & Hw & Hevs).
  unfold handle, try_catch, bind.
  destruct (prepare env request requestBody w)
    as [[[response|[streamId stream]]|e] w1]; cbn in Hw; subst w1.
  - exists evs. split; [reflexivity|exact Hevs].
  - destruct (deliver_run env streamId stream (extend w evs))
      as (evs' & w' & Htr & Hevs' & Hrun).
    assert (Hall : Forall
      (invokedWith (fun args => exists messages,
         args = streamTextArgs (body_selectedChatModel requestBody)
                               (req_geo request) messages))
      (evs ++ evs')).
    { apply Forall_app. split; [exact Hevs|].
      eapply Forall_impl; [|exact Hevs'].
      intros ev. apply leavesChatsAlone_invokedWith. }
    cbn in Htr. rewrite <- app_assoc in Htr.
    destruct Hrun as [[_ ->]|[_ ->]].
    + exists (evs ++ evs')%list. split; [exact Htr|exact Hall].
    + destruct (resumableStream env streamId) as [[|]|[code m|m]].
      * exists (evs ++ evs')%list. split; [exact Htr|exact Hall].
      * exists (evs ++ evs')%list. split; [exact Htr|exact Hall].
      * exists (evs ++ evs')%list. split; [exact Htr|exact Hall].
      * exists ((evs ++ evs') ++
                [ConsoleError "Unhandled error in POST handler:" (Error m)])%list.
        split.
        -- cbn. rewrite Htr. now rewrite <- !app_assoc.
        -- apply Forall_app. split; [exact Hall|]. repeat constructor.
  - destruct e as [code m|m].
    + exists evs. split; [reflexivity|exact Hevs].
    + exists (evs ++
              [ConsoleError "Unhandled error in POST handler:" (Error m)])%list.
      split.
      * cbn. now rewrite <- app_assoc.
      * apply Forall_app. split; [exact Hevs|]. repeat constructor.
Qed.

(** ** [POST]: the model run and the delivery of its stream *)

(** C10.  Every model invocation of a [POST] depends on the selected model as
    follows.  With ['chat-model-reasoning'] the list of active tools is empty
    and the system prompt is the regular prompt, the health prompt and the
    request prompt, with no artifacts instructions appended.  With any other
    model the four tools [getWeather], [createDocument], [updateDocument],
    [requestSuggestions] are active and the artifacts instructions are
    appended to that same prompt.  In both cases the system prompt contains
    the regular prompt and the health prompt. *)
Theorem POST_model_arguments :
  forall (env : Env) (request : Request) (requestBody : PostRequestBody)
         (w : World) (evs : list Event) (args : StreamTextArgs),
    req_body request = Ok requestBody ->
    trace (snd (POST env request w)) = (trace w ++ evs)%list ->
    In (StreamText args) evs ->
    let selectedChatModel := body_selectedChatModel requestBody in
    let plain :=
      Prompts.regularPrompt ++ nl ++ nl ++ Prompts.healthPrompt ++ nl ++ nl
        ++ Prompts.getRequestPromptFromHints (req_geo request) in
    Contains Prompts.regularPrompt (st_system args)
    /\ Contains Prompts.healthPrompt (st_system args)
    /\ (selectedChatModel = "chat-model-reasoning" ->
          st_experimental_activeTools args = []
          /\ st_system args = plain)
    /\ (selectedChatModel <> "chat-model-reasoning" ->
          st_experimental_activeTools args =
            ["getWeather"; "createDocument"; "updateDocument";
             "requestSuggestions"]
          /\ st_system args = plain ++ nl ++ nl ++ Prompts.artifactsPrompt).
Proof.
  intros env request requestBody w evs args Hbody Htrace Hin.
  destruct (POST_invocations env request requestBody w Hbody)
    as (evs' & Htrace' & Hall).
  rewrite Htrace in Htrace'. apply app_inv_head in Htrace'. subst evs'.
  rewrite Forall_forall in Hall. specialize (Hall _ Hin).
  cbn in Hall. destruct Hall as [messages ->].
  apply streamTextArgs_by_model.
Qed.

(** When the model run of a [POST] finishes, [onFinish] returns without
    throwing whatever the calls inside it do, and the data stream of the
    request is the parts of the model run, with no error part. *)
Lemma model_stream_survives_onFinish :
  forall (env : Env) (session : Session) (id : string) (message : UIMessage)
         (args : StreamTextArgs) (response : list ResponseMessage)
         (w : World),
    gen_response (streamText env args) = Some response ->
    exists evs,
      onFinish env session id message response (record w (StreamText args))
        = (Ok tt, extend (record w (StreamText args)) evs)
      /\ createChatStream env session id message args w
           = (Ok (gen_parts (streamText env args)),
              extend w (StreamText args :: evs))
      /\ (forall rows e,
            In (SaveMessages rows) evs ->
            saveMessages env rows = Throw e ->
            In (ConsoleError "Error in onFinish handler:" e) evs).
Proof.
  intros env session id message args response w Hfinished.
  destruct (onFinish_run env session id message response
              (record w (StreamText args))) as (evs & Hrun & Hlogged).
  exists evs. split; [exact Hrun|]. split; [|exact Hlogged].
  unfold createChatStream. unfold bind at 1. unfold emit at 1.
  cbv beta iota zeta. rewrite Hfinished.
  unfold try_catch. rewrite (bind_ok _ _ _ _ _ Hrun). unfold ret.
  now worlds.
Qed.

(** C6.  Take a [POST] whose model run finishes with an assistant message to
    save (the session has a user id, the response has a trailing assistant
    message id and an assistant message) and let the save of that message
    fail.  Then [onFinish] has tried the save, with the row of the assistant
    message, has logged the failure with [console.error] as its last step,
    and returns without throwing.  The data stream of the request is the
    parts of the model run, with no error part: the same stream as in every
    other course of [onFinish], a successful save among them. *)
Theorem save_failure_is_swallowed :
  forall (env : Env) (session : Session) (id : string) (message : UIMessage)
         (args : StreamTextArgs) (response : list ResponseMessage)
         (w : World) (u : User) (assistantId : string)
         (appended : list UIMessage) (assistantMessage : UIMessage)
         (e : Exn),
    gen_response (streamText env args) = Some response ->
    session_user session = Some u ->
    user_id u <> "" ->
    getTrailingMessageId env
      (filter (fun m => String.eqb (rm_role m) "assistant") response)
      = Ok (Some assistantId) ->
    assistantId <> "" ->
    appendResponseMessages env [message] response = Ok appended ->
    nth_error appended 1 = Some assistantMessage ->
    saveMessages env [assistantRow env id assistantId assistantMessage]
      = Throw e ->
    (exists label,
       let steps :=
         [ ConsoleLog "Raw assistantMessage:";
           ConsoleLog label;
           ConsoleLog "Formatted message to save:";
           SaveMessages [assistantRow env id assistantId assistantMessage];
           ConsoleError "Error in onFinish handler:" e ] in
       onFinish env session id message response (record w (StreamText args))
         = (Ok tt, extend (record w (StreamText args)) steps)
       /\ createChatStream env session id message args w
            = (Ok (gen_parts (streamText env args)),
               extend w (StreamText args :: steps)))
    /\ (forall env' : Env,
          streamText env' args = streamText env args ->
          fst (createChatStream env' session id message args w)
            = Ok (gen_parts (streamText env args))).
Proof.
  intros env session id message args response w u assistantId appended
    assistantMessage e Hfinished Huser Hid Htrailing Hassistant Happended
    Hsecond Hsave.
  split.
  - assert (Hrun : exists label,
      onFinish env session id message response (record w (StreamText args))
        = (Ok tt,
           extend (record w (StreamText args))
             [ ConsoleLog "Raw assistantMessage:";
               ConsoleLog label;
               ConsoleLog "Formatted message to save:";
               SaveMessages [assistantRow env id assistantId assistantMessage];
               ConsoleError "Error in onFinish handler:" e ])).
    { unfold onFinish. rewrite Huser.
      unfold string_truthy at 1. rewrite (string_neq_eqb _ _ Hid).
      cbn [negb].
      unfold call; unfold try_catch, bind, lift, emit, ret, throw.
      rewrite Htrailing. cbv beta iota zeta.
      unfold string_truthy at 1. rewrite (string_neq_eqb _ _ Hassistant).
      cbn [negb]. cbv beta iota zeta.
      rewrite Happended. cbv beta iota zeta. rewrite Hsecond.
      unfold assistantRow, assistantParts in *.
      destruct (ui_parts assistantMessage) as [[|p ps]|];
        [ destruct (ui_content assistantMessage) as [content|];
            [destruct (string_truthy (trim content))|]
        |
        | destruct (ui_content assistantMessage) as [content|];
            [destruct (string_truthy (trim content))|] ];
        cbv beta iota zeta; rewrite Hsave; cbv beta iota;
        eexists; worlds; reflexivity. }
    destruct Hrun as [label Hrun]. exists label. cbv zeta.
    split; [exact Hrun|].
    unfold createChatStream. unfold bind at 1. unfold emit at 1.
    cbv beta iota zeta. rewrite Hfinished.
    unfold try_catch. rewrite (bind_ok _ _ _ _ _ Hrun). unfold ret.
    now worlds.
  - intros env' Hsame.
    assert (Hfinished' : gen_response (streamText env' args) = Some response)
      by now rewrite Hsame.
    destruct (model_stream_survives_onFinish env' session id message args
                response w Hfinished') as (evs & _ & Hstream & _).
    now rewrite Hstream, Hsame.
Qed.

(** C7.  Take a [POST] that gets as far as the started model stream.  The
    stream id is the freshly generated one, registered for the chat, and the
    stream is the data stream of the model run.  When no stream registry can
    be had, the response is that stream as it is, with status 200.  When the
    registry is there and [resumableStream] hands out a stream, the response
    is the same stream wrapped as the resumable stream of that stream id. *)
Theorem POST_delivery :
  forall (env : Env) (request : Request) (requestBody : PostRequestBody)
         (w w1 : World) (streamId : string) (stream : DataStream),
    req_body request = Ok requestBody ->
    prepare env request requestBody w = (Ok (inr (streamId, stream)), w1) ->
    streamId = generateUUID env
    /\ In (CreateStreamId streamId (body_id requestBody)) (trace w1)
    /\ (exists args,
          In (StreamText args) (trace w1)
          /\ (stream = gen_parts (streamText env args)
              \/ (gen_response (streamText env args) = None
                  /\ stream =
                     (gen_parts (streamText env args) ++ [ErrorPart oops])%list)))
    /\ (Unavailable env w ->
        fst (POST env request w) = Ok (MkResponse (StreamBody stream) 200 None))
    /\ (Available env w ->
        resumableStream env streamId = Ok true ->
        fst (POST env request w) =
          Ok (MkResponse (ResumableBody streamId stream) 200 None)).
Proof.
  intros env request requestBody w w1 streamId stream Hbody Hprep.
  destruct (prepare_started _ _ _ _ _ _ _ Hprep)
    as (Hid & session & messages & w0 & Hreg & Hstream).
  destruct (createChatStream_content _ _ _ _ _ _ _ _ Hstream)
    as (Hcontent & evs & Hw1).
  destruct (emits_prepare env request requestBody w) as (evs0 & Hframe & _).
  rewrite Hprep in Hframe. cbn in Hframe.
  assert (Hglobal : globalStreamContext w1 = globalStreamContext w)
    by now rewrite Hframe.
  split; [exact Hid|]. split; [|split; [|split]].
  - rewrite Hw1. cbn. apply in_or_app. now left.
  - exists (streamTextArgs (body_selectedChatModel requestBody)
                           (req_geo request) messages).
    split; [|exact Hcontent].
    rewrite Hw1. cbn. apply in_or_app. right. now left.
  - intros [Hnone Hfail].
    assert (Hun : Unavailable env w1) by (split; [congruence|exact Hfail]).
    destruct (getStreamContext_unavailable _ _ Hun) as (evs' & Hctx & _).
    unfold POST. rewrite Hbody. unfold handle, try_catch.
    rewrite (bind_ok _ _ _ _ _ Hprep). cbv beta iota.
    unfold deliver. now rewrite (bind_ok _ _ _ _ _ Hctx).
  - intros Havail Hlive.
    assert (Havail1 : Available env w1).
    { destruct Havail as [[c Hc]|Hc]; [left; exists c; congruence|now right]. }
    destruct (getStreamContext_available _ _ Havail1) as (c & evs' & Hctx & _).
    unfold POST. rewrite Hbody. unfold handle, try_catch.
    rewrite (bind_ok _ _ _ _ _ Hprep). cbv beta iota.
    unfold deliver. rewrite (bind_ok _ _ _ _ _ Hctx). cbv beta iota.
    unfold bind at 1. now rewrite call_run, Hlive.
Qed.

(** ** [GET] and [DELETE] let exceptions out *)

(** [DELETE] has no [catch]: a failed lookup, and the lookup of a chat that
    does not exist, end in an exception. *)
Lemma DELETE_throws (env : Env) (request : Request) (w : World)
    (id : string) (u : User) :
  param (req_id request) = Some id ->
  caller env = Some u ->
  (getChatById env id = Ok None ->
   fst (DELETE env request w) =
     Throw (Error "Cannot read properties of undefined (reading 'userId')"))
  /\ (forall e, getChatById env id = Throw e ->
                fst (DELETE env request w) = Throw e).
Proof.
  intros Hparam Hcaller.
  destruct (caller_session _ _ Hcaller) as (session & Hauth & Huser).
  split; [intros Hchat|intros e Hchat];
    unfold DELETE; rewrite Hparam;
    unfold bind at 1; rewrite call_run, Hauth; cbv beta iota; rewrite Huser;
    unfold bind at 1; now rewrite call_run, Hchat.
Qed.

(** [GET] has no [catch] either: a failing lookup of the stream ids gets
    out. *)
Lemma GET_throws (env : Env) (request : Request) (w : World)
    (chatId : string) (u : User) (chat : Chat) (e : Exn) :
  Available env w ->
  param (req_chatId request) = Some chatId ->
  caller env = Some u ->
  getChatById env chatId = Ok (Some chat) ->
  (chat_visibility chat = public \/ chat_userId chat = user_id u) ->
  getStreamIdsByChatId env chatId = Throw e ->
  fst (GET env request w) = Throw e.
Proof.
  intros Havail Hparam Hcaller Hchat Hread Hids.
  enter_GET Havail Hparam Hcaller. pass_gate Hchat Hread u.
  unfold bind at 1. now rewrite call_run, Hids.
Qed.

(** ** The handlers on the sample deployment *)

Import Sample.

(** C1, on a run: an answer created 10 seconds before the resume request is
    replayed once, an answer created 100 seconds before it is not. *)
Lemma GET_replays_recent_answer_run :
  fst (GET (resumed (row "m2" "assistant" 90000)) resume initialWorld)
    = Ok (MkResponse
            (StreamBody
               [DataPart "append-message"
                  (JsonOfMessage (row "m2" "assistant" 90000))])
            200 None)
  /\ fst (GET (resumed (row "m2" "assistant" 0)) resume initialWorld)
       = Ok (MkResponse (StreamBody []) 200 None).
Proof.
  split.
  - apply (proj1 (GET_replays_recent_answer
                    (resumed (row "m2" "assistant" 90000)) resume initialWorld
                    "c1" bob (aliceChat public) ["s0"] "s1"
                    [row "m2" "assistant" 90000]
                    (or_intror (ex_intro _ StreamContext eq_refl))
                    eq_refl eq_refl eq_refl (or_introl eq_refl) eq_refl
                    ltac:(discriminate) eq_refl eq_refl)
                 [] (row "m2" "assistant" 90000)).
    + reflexivity.
    + reflexivity.
    + vm_compute. reflexivity.
  - apply (proj2 (GET_replays_recent_answer
                    (resumed (row "m2" "assistant" 0)) resume initialWorld
                    "c1" bob (aliceChat public) ["s0"] "s1"
                    [row "m2" "assistant" 0]
                    (or_intror (ex_intro _ StreamContext eq_refl))
                    eq_refl eq_refl eq_refl (or_introl eq_refl) eq_refl
                    ltac:(discriminate) eq_refl eq_refl)).
    right. exists [], (row "m2" "assistant" 0).
    split; [reflexivity|]. right. vm_compute. discriminate.
Defined.

(** C1 as first stated fails: an assistant message created 15.5 seconds
    before the resume request is older than 15 seconds, and it is replayed. *)
Lemma GET_replays_after_15_seconds :
  let last := row "m2" "assistant" 84500 in
  let env := resumed last in
  (now env - msg_createdAt last > 15000)%Z
  /\ resumableStream env "s1" = Ok false
  /\ fst (GET env resume initialWorld)
       = Ok (MkResponse
               (StreamBody [DataPart "append-message" (JsonOfMessage last)])
               200 None)
  /\ fst (GET env resume initialWorld)
       <> Ok (MkResponse (StreamBody emptyDataStream) 200 None).
Proof.
  cbv zeta. split; [vm_compute; reflexivity|].
  split; [reflexivity|]. split; [reflexivity|].
  vm_compute. discriminate.
Defined.


(** C2, on a run: Bob, a guest with 21 and then 22 messages counted in the
    last day against a maximum of 20, is turned away twice. *)
Lemma POST_over_quota_every_request_run :
  exists evs,
    serve [ (deployment (Some bob) 21 None [] true, post "chat-model");
            (deployment (Some bob) 22 None [] true,
             post "chat-model-reasoning") ]
          initialWorld
      = ([ Ok (ErrorResponse "rate_limit:chat");
           Ok (ErrorResponse "rate_limit:chat") ],
         extend initialWorld evs)
    /\ Forall leavesChatsAlone evs.
Proof.
  apply (POST_over_quota_every_request
           [ (deployment (Some bob) 21 None [] true, post "chat-model");
             (deployment (Some bob) 22 None [] true,
              post "chat-model-reasoning") ]
           initialWorld).
  repeat constructor.
  - exists (body "chat-model"), bob, 21%Z.
    repeat split; vm_compute; reflexivity.
  - exists (body "chat-model-reasoning"), bob, 22%Z.
    repeat split; vm_compute; reflexivity.
Defined.

(** C2 as first stated fails: Bob is signed in and over the quota, but the
    body of his request does not parse; the answer is [bad_request:api], not
    [rate_limit:chat]. *)
Lemma POST_malformed_over_quota :
  let env := deployment (Some bob) 21 None [] true in
  caller env = Some bob
  /\ getMessageCountByUserId env (user_id bob) 24 = Ok 21%Z
  /\ (21 > maxMessagesPerDay (entitlementsByUserType env (user_type bob)))%Z
  /\ fst (POST env malformed initialWorld)
       = Ok (ErrorResponse "bad_request:api")
  /\ fst (POST env malformed initialWorld)
       <> Ok (ErrorResponse "rate_limit:chat").
Proof.
  cbv zeta. split; [reflexivity|]. split; [reflexivity|].
  split; [vm_compute; reflexivity|]. split; [reflexivity|].
  vm_compute. discriminate.
Defined.

(** C3, on a run: Bob is refused Alice's chat by [DELETE], by [GET] when the
    chat is private, and by [POST]; when the chat is public, [GET] does not
    refuse him and looks up the stream ids. *)
Lemma foreign_chat_is_forbidden_run :
  let shared := deployment (Some bob) 3 (Some (aliceChat public)) [] true in
  fst (DELETE shared remove initialWorld)
    = Ok (ErrorResponse "forbidden:chat")
  /\ fst (GET (deployment (Some bob) 3 (Some (aliceChat private)) [] true)
              resume initialWorld)
       = Ok (ErrorResponse "forbidden:chat")
  /\ (fst (GET shared resume initialWorld)
        <> Ok (ErrorResponse "forbidden:chat")
      /\ exists evs,
           trace (snd (GET shared resume initialWorld))
             = (trace initialWorld ++ evs)%list
           /\ In (GetStreamIdsByChatId "c1") evs)
  /\ fst (POST shared (post "chat-model") initialWorld)
       = Ok (ErrorResponse "forbidden:chat").
Proof.
  cbv zeta. split; [|split; [|split]].
  - apply (proj1 (foreign_chat_is_forbidden
                    (deployment (Some bob) 3 (Some (aliceChat public)) [] true)
                    remove initialWorld bob (aliceChat public)
                    eq_refl ltac:(discriminate)) "c1");
      reflexivity.
  - apply (proj1 (proj2 (foreign_chat_is_forbidden
                    (deployment (Some bob) 3 (Some (aliceChat private)) [] true)
                    resume initialWorld bob (aliceChat private)
                    eq_refl ltac:(discriminate))) "c1");
      try reflexivity.
    right. now exists StreamContext.
  - apply (proj1 (proj2 (proj2 (foreign_chat_is_forbidden
                    (deployment (Some bob) 3 (Some (aliceChat public)) [] true)
                    resume initialWorld bob (aliceChat public)
                    eq_refl ltac:(discriminate)))) "c1"
                 (fst (GET (deployment (Some bob) 3 (Some (aliceChat public))
                                       [] true) resume initialWorld))
                 (snd (GET (deployment (Some bob) 3 (Some (aliceChat public))
                                       [] true) resume initialWorld)));
      first [reflexivity | right; now exists StreamContext].
  - apply (proj2 (proj2 (proj2 (foreign_chat_is_forbidden
                    (deployment (Some bob) 3 (Some (aliceChat public)) [] true)
                    (post "chat-model") initialWorld bob (aliceChat public)
                    eq_refl ltac:(discriminate)))) (body "chat-model") 3%Z);
      try reflexivity.
    vm_compute. discriminate.
Defined.

(** C3 as first stated fails: Bob, signed in, resumes Alice's public chat and
    is not refused. *)
Lemma GET_serves_public_chat_to_others :
  let env := deployment (Some bob) 3 (Some (aliceChat public)) [] true in
  caller env = Some bob
  /\ getChatById env "c1" = Ok (Some (aliceChat public))
  /\ chat_userId (aliceChat public) <> user_id bob
  /\ fst (GET env resume initialWorld)
       = Ok (MkResponse (ResumableBody "s1" emptyDataStream) 200 None)
  /\ fst (GET env resume initialWorld) <> Ok (ErrorResponse "forbidden:chat").
Proof.
  cbv zeta. split; [reflexivity|]. split; [reflexivity|].
  split; [discriminate|]. split; [reflexivity|].
  vm_compute. discriminate.
Defined.

(** C4, on a run: 204 without the registry; [not_found:chat] for a chat that
    does not exist; [not_found:stream] for a chat without streams. *)
Lemma GET_not_found_run :
  fst (GET (withoutRegistry (deployment (Some bob) 3 None [] true))
           resume initialWorld)
    = Ok (MkResponse NullBody 204 None)
  /\ fst (GET (deployment (Some bob) 3 None [] true) resume initialWorld)
       = Ok (ErrorResponse "not_found:chat")
  /\ fst (GET (withoutStreams
                 (deployment (Some bob) 3 (Some (aliceChat public)) [] true))
              resume initialWorld)
       = Ok (ErrorResponse "not_found:stream").
Proof.
  split; [|split].
  - apply (proj1 (GET_not_found
                    (withoutRegistry (deployment (Some bob) 3 None [] true))
                    resume initialWorld)).
    split; [reflexivity|]. now exists (Error "REDIS_URL is not set").
  - apply (proj1 (proj2 (GET_not_found
                    (deployment (Some bob) 3 None [] true)
                    resume initialWorld)) "c1" bob);
      try reflexivity.
    + right. now exists StreamContext.
    + now left.
  - apply (proj2 (proj2 (GET_not_found
                    (withoutStreams
                       (deployment (Some bob) 3 (Some (aliceChat public))
                                   [] true))
                    resume initialWorld)) "c1" bob (aliceChat public));
      try reflexivity.
    + right. now exists StreamContext.
    + now left.
Defined.

(** C4 as first stated fails: with the registry at hand and a chat that does
    not exist, a request without a session is answered [unauthorized:chat],
    not [not_found:chat]; and a private chat of Alice's without any stream
    id is refused to Bob with [forbidden:chat], not [not_found:stream]. *)
Lemma GET_checks_before_not_found :
  let env := deployment None 3 None [] true in
  let env' :=
    withoutStreams
      (deployment (Some bob) 3 (Some (aliceChat private)) [] true) in
  (Available env initialWorld
   /\ getChatById env "c1" = Ok None
   /\ fst (GET env resume initialWorld)
        = Ok (ErrorResponse "unauthorized:chat")
   /\ fst (GET env resume initialWorld)
        <> Ok (ErrorResponse "not_found:chat"))
  /\ (Available env' initialWorld
      /\ getChatById env' "c1" = Ok (Some (aliceChat private))
      /\ getStreamIdsByChatId env' "c1" = Ok []
      /\ fst (GET env' resume initialWorld)
           = Ok (ErrorResponse "forbidden:chat")
      /\ fst (GET env' resume initialWorld)
           <> Ok (ErrorResponse "not_found:stream")).
Proof.
  cbv zeta. split.
  - split; [right; now exists StreamContext|].
    split; [reflexivity|]. split; [reflexivity|].
    vm_compute. discriminate.
  - split; [right; now exists StreamContext|].
    split; [reflexivity|]. split; [reflexivity|]. split; [reflexivity|].
    vm_compute. discriminate.
Defined.

(** C5 fails on the code: Bob deletes a chat that does not exist (deleted
    before, say); [DELETE] reads [userId] of the missing chat and the
    [TypeError] leaves the handler. *)
Theorem DELETE_of_missing_chat_escapes :
  fst (DELETE (deployment (Some bob) 3 None [] true) remove initialWorld)
    = Throw (Error "Cannot read properties of undefined (reading 'userId')").
Proof.
  apply (proj1 (DELETE_throws (deployment (Some bob) 3 None [] true)
                  remove initialWorld "c1" bob eq_refl eq_refl)).
  reflexivity.
Qed.

(** C6, on a run: the message table rejects the assistant message; [onFinish]
    has tried the save and logged the error, and the data stream is the
    model's parts. *)
Lemma save_failure_is_swallowed_run :
  let env := withFailingSave (deployment (Some alice) 3 None [] true) in
  let args := streamTextArgs "chat-model" nowhere [hello] in
  saveMessages env [assistantRow env "c1" "m2" answer]
    = Throw (Error "connection lost")
  /\ exists label,
       let steps :=
         [ ConsoleLog "Raw assistantMessage:";
           ConsoleLog label;
           ConsoleLog "Formatted message to save:";
           SaveMessages [assistantRow env "c1" "m2" answer];
           ConsoleError "Error in onFinish handler:"
                        (Error "connection lost") ] in
       onFinish env {| session_user := Some alice |} "c1" hello
           [ {| rm_id := "m2"; rm_role := "assistant" |} ]
           (record initialWorld (StreamText args))
         = (Ok tt, extend (record initialWorld (StreamText args)) steps)
       /\ createChatStream env {| session_user := Some alice |} "c1" hello
             args initialWorld
           = (Ok (gen_parts (streamText env args)),
              extend initialWorld (StreamText args :: steps)).
Proof.
  cbv zeta. split; [reflexivity|].
  exact (proj1 (save_failure_is_swallowed
           (withFailingSave (deployment (Some alice) 3 None [] true))
           {| session_user := Some alice |} "c1" hello
           (streamTextArgs "chat-model" nowhere [hello])
           [ {| rm_id := "m2"; rm_role := "assistant" |} ]
           initialWorld alice "m2" [hello; answer] answer
           (Error "connection lost")
           eq_refl eq_refl ltac:(discriminate) eq_refl ltac:(discriminate)
           eq_refl eq_refl eq_refl)).
Defined.

(** C7, on a run: the same request without and with the registry. *)
Lemma POST_delivery_run :
  fst (POST (withoutRegistry (deployment (Some alice) 3 None [] true))
            (post "chat-model") initialWorld)
    = Ok (MkResponse (StreamBody [ModelPart "hi"]) 200 None)
  /\ fst (POST (deployment (Some alice) 3 None [] true)
               (post "chat-model") initialWorld)
       = Ok (MkResponse (ResumableBody "s1" [ModelPart "hi"]) 200 None).
Proof.
  split.
  - refine (proj1 (proj2 (proj2 (proj2 (POST_delivery
              (withoutRegistry (deployment (Some alice) 3 None [] true))
              (post "chat-model") (body "chat-model") initialWorld
              (snd (prepare
                      (withoutRegistry (deployment (Some alice) 3 None [] true))
                      (post "chat-model") (body "chat-model") initialWorld))
              "s1" [ModelPart "hi"] eq_refl _)))) _).
    + vm_compute. reflexivity.
    + split; [reflexivity|]. now exists (Error "REDIS_URL is not set").
  - refine (proj2 (proj2 (proj2 (proj2 (POST_delivery
              (deployment (Some alice) 3 None [] true)
              (post "chat-model") (body "chat-model") initialWorld
              (snd (prepare (deployment (Some alice) 3 None [] true)
                      (post "chat-model") (body "chat-model") initialWorld))
              "s1" [ModelPart "hi"] eq_refl _)))) _ _).
    + vm_compute. reflexivity.
    + right. now exists StreamContext.
    + reflexivity.
Defined.

(** C8, on a run: a body that does not parse, and a valid body without a
    session. *)
Lemma POST_rejects_before_work_run :
  POST (deployment (Some alice) 3 None [] true) malformed initialWorld
    = (Ok (ErrorResponse "bad_request:api"),
       record initialWorld
         (ConsoleError "Error parsing request body:"
                       (Error "Unexpected token")))
  /\ POST (deployment None 3 None [] true) (post "chat-model") initialWorld
       = (Ok (ErrorResponse "unauthorized:chat"), record initialWorld Auth).
Proof.
  split.
  - apply (proj1 (POST_rejects_before_work
                    (deployment (Some alice) 3 None [] true)
                    malformed initialWorld)).
    reflexivity.
  - apply (proj2 (POST_rejects_before_work
                    (deployment None 3 None [] true)
                    (post "chat-model") initialWorld) (body "chat-model")).
    + reflexivity.
    + reflexivity.
    + now exists (Some {| session_user := None |}).
Defined.

(** C9, on a run: the title model answers with blanks only. *)
Lemma generateTitle_total_nonempty_run :
  let env := withTitle (Ok (JSString ("  " ++ nl)))
               (deployment (Some alice) 3 None [] true) in
  Unusable (generateText env hello)
  /\ exists w',
       generateTitleFromUserMessage env hello initialWorld
         = (Ok fallbackTitle, w').
Proof.
  cbv zeta.
  assert (Hblank : Unusable
    (generateText (withTitle (Ok (JSString ("  " ++ nl)))
                     (deployment (Some alice) 3 None [] true)) hello)).
  { apply unusable_blank.
    apply (blank_more " " (" " ++ nl)); [cbn; tauto|].
    apply (blank_more " " nl); [cbn; tauto|].
    apply (blank_more nl ""); [cbn; tauto|].
    apply blank_empty. }
  split; [exact Hblank|].
  destruct (generateTitle_total_nonempty
              (withTitle (Ok (JSString ("  " ++ nl)))
                 (deployment (Some alice) 3 None [] true))
              hello initialWorld) as (title & w' & Hrun & _ & Hfallback).
  exists w'. rewrite <- (Hfallback Hblank). exact Hrun.
Defined.

(** C10, on a run: a request for the reasoning model. *)
Lemma POST_model_arguments_run :
  let args := streamTextArgs "chat-model-reasoning" nowhere [hello] in
  st_experimental_activeTools args = []
  /\ Contains Prompts.regularPrompt (st_system args)
  /\ Contains Prompts.healthPrompt (st_system args).
Proof.
  cbv zeta.
  pose proof (POST_model_arguments
                (deployment (Some alice) 3 None [] true)
                (post "chat-model-reasoning") (body "chat-model-reasoning")
                initialWorld
                (trace (snd (POST (deployment (Some alice) 3 None [] true)
                                  (post "chat-model-reasoning") initialWorld)))
                (streamTextArgs "chat-model-reasoning" nowhere [hello])
                eq_refl eq_refl) as H.
  cbv zeta in H.
  destruct H as (Hregular & Hhealth & Hreasoning & _).
  - vm_compute. find_event.
  - split; [exact (proj1 (Hreasoning eq_refl))|].
    split; [exact Hregular|exact Hhealth].
Defined.

(** ** Further results: what the handlers call, and when *)

Section Traces.

Context {P : Event -> Prop}.

Lemma traces_ret {A} (a : A) : traces P (ret a).
Proof. intros w. exists []. cbn. now rewrite app_nil_r. Qed.

Lemma traces_throw {A} (e : Exn) : traces P (@throw A e).
Proof. intros w. exists []. cbn. now rewrite app_nil_r. Qed.

Lemma traces_lift {A} (r : Result A) : traces P (lift r).
Proof. intros w. exists []. cbn. now rewrite app_nil_r. Qed.

Lemma traces_getGlobal : traces P getGlobal.
Proof. intros w. exists []. cbn. now rewrite app_nil_r. Qed.

Lemma traces_setGlobal (c : option ResumableStreamContext) :
  traces P (setGlobal c).
Proof. intros w. exists []. cbn. now rewrite app_nil_r. Qed.

Lemma traces_emit (ev : Event) : P ev -> traces P (emit ev).
Proof. intros H w. exists [ev]. split; [reflexivity|]. now constructor. Qed.

Lemma traces_call {A} (ev : Event) (r : Result A) :
  P ev -> traces P (call ev r).
Proof. intros H w. exists [ev]. split; [reflexivity|]. now constructor. Qed.

Lemma traces_bind {A B} (m : M A) (k : A -> M B) :
  traces P m -> (forall a, returns m a -> traces P (k a)) ->
  traces P (bind m k).
Proof.
  intros Hm Hk w. destruct (Hm w) as (evs & Hw & Hevs).
  unfold bind. destruct (m w) as [[a|e] w1] eqn:Hrun; cbn in Hw.
  - destruct (Hk a (ex_intro _ w (ex_intro _ w1 Hrun)) w1)
      as (evs' & Hw' & Hevs').
    exists (evs ++ evs')%list. rewrite Hw', Hw, app_assoc.
    split; [reflexivity|]. now apply Forall_app.
  - now exists evs.
Qed.

Lemma traces_try_catch {A} (m : M A) (h : Exn -> M A) :
  traces P m -> (forall e, throws m e -> traces P (h e)) ->
  traces P (try_catch m h).
Proof.
  intros Hm Hh w. destruct (Hm w) as (evs & Hw & Hevs).
  unfold try_catch. destruct (m w) as [[a|e] w1] eqn:Hrun; cbn in Hw.
  - now exists evs.
  - destruct (Hh e (ex_intro _ w (ex_intro _ w1 Hrun)) w1)
      as (evs' & Hw' & Hevs').
    exists (evs ++ evs')%list. rewrite Hw', Hw, app_assoc.
    split; [reflexivity|]. now apply Forall_app.
Qed.

(** The calls of one run are among those [traces] speaks of. *)
Lemma traces_In {A} (m : M A) (w : World) (evs : list Event) (ev : Event) :
  traces P m ->
  trace (snd (m w)) = (trace w ++ evs)%list ->
  In ev evs -> P ev.
Proof.
  intros Hm Htrace Hin. destruct (Hm w) as (evs' & Htrace' & Hall).
  rewrite Htrace in Htrace'. apply app_inv_head in Htrace'. subst evs'.
  rewrite Forall_forall in Hall. now apply Hall.
Qed.

End Traces.

Lemma returns_ret {A} (x a : A) : returns (ret x) a -> a = x.
Proof. intros (w & w1 & H). now injection H. Qed.

Lemma returns_lift {A} (r : Result A) (a : A) : returns (lift r) a -> r = Ok a.
Proof. intros (w & w1 & H). now injection H. Qed.

Lemma returns_call {A} (ev : Event) (r : Result A) (a : A) :
  returns (call ev r) a -> r = Ok a.
Proof. intros (w & w1 & H). rewrite call_run in H. now injection H. Qed.

Lemma throws_call {A} (ev : Event) (r : Result A) (e : Exn) :
  throws (call ev r) e -> r = Throw e.
Proof. intros (w & w1 & H). rewrite call_run in H. now injection H. Qed.

Lemma returns_bind {A B} (m : M A) (k : A -> M B) (b : B) :
  returns (bind m k) b -> exists a, returns m a /\ returns (k a) b.
Proof.
  intros (w & w1 & H). apply bind_inv in H as (a & w' & Hm & Hk).
  exists a. split; [now exists w, w'|now exists w', w1].
Qed.

(** [try { m } catch (error) { log; throw error }] returns only what [m]
    returns. *)
Lemma returns_rethrow {A} (m : M A) (h : Exn -> M unit) (a : A) :
  returns (try_catch m (fun error => bind (h error) (fun _ => throw error))) a ->
  returns m a.
Proof.
  intros (w & w1 & H). unfold try_catch in H.
  destruct (m w) as [[a'|e] w'] eqn:Hm.
  - injection H as -> ->. now exists w, w1.
  - unfold bind, throw in H. destruct (h e w') as [[[]|e'] w'']; discriminate.
Qed.

(** Walks through a handler the way [emits_walk] does, keeping what each step
    returned and which way each test went. *)
Ltac traces_walk :=
  repeat first
    [ apply traces_ret
    | apply traces_throw
    | apply traces_lift
    | apply traces_getGlobal
    | apply traces_setGlobal
    | apply traces_emit
    | apply traces_call
    | apply traces_bind; [|intros ? ?]
    | apply traces_try_catch; [|intros ? ?]
    | match goal with
      | |- traces _ (match ?x with _ => _ end) =>
          first [is_var x; destruct x | destruct x eqn:?]
      | |- traces _ (let _ := _ in _) => cbv zeta
      | |- traces _ (onFinish _ _ _ _ _) => unfold onFinish
      | |- traces _ (replay _ _ _) => unfold replay
      | |- traces _ (ensureChat _ _ _) => unfold ensureChat
      | |- traces _ (startStream _ _ _ _) => unfold startStream
      | |- traces _ (createChatStream _ _ _ _ _) => unfold createChatStream
      | |- traces _ (POST _ _) => unfold POST
      | |- traces _ (GET _ _) => unfold GET
      | |- traces _ (DELETE _ _) => unfold DELETE
      end ].

(** X8.  Whatever the outcome of its calls, [GET] writes nothing to the
    database and invokes no model: it inserts no user, saves no chat and no
    message, registers no stream id, deletes no chat, and calls neither
    [streamText] nor [generateText]. *)
Theorem GET_writes_nothing :
  forall (env : Env) (request : Request), traces writesNothing (GET env request).
Proof.
  intros env request. traces_walk; exact I.
Qed.

(** [ensureChat] lets a request through only for a chat that is new or the
    caller's own. *)
Lemma ensureChat_passes (env : Env) (u : User) (requestBody : PostRequestBody) :
  returns (ensureChat env u requestBody) None -> OwnOrNew env u requestBody.
Proof.
  unfold ensureChat. cbv zeta. intros H.
  apply returns_bind in H as (chat & Hcall & H).
  apply returns_call in Hcall. destruct chat as [chat|]; [|now left].
  right. exists chat. split; [exact Hcall|].
  destruct (String.eqb_spec (chat_userId chat) (user_id u)) as [Heq|Hne];
    [exact Heq|].
  cbn in H. apply returns_ret in H. discriminate.
Qed.

(** Turns what the steps of a walk returned into facts about the
    environment. *)
Ltac returned :=
  repeat match goal with
    | H : returns (call _ _) _ |- _ => apply returns_call in H
    | H : throws (call _ _) _ |- _ => apply throws_call in H
    | H : returns (ensureChat _ _ _) None |- _ => apply ensureChat_passes in H
    | H : returns (try_catch _ (fun error => bind _ (fun _ => throw error))) _
      |- _ => apply returns_rethrow in H
    | H : returns (bind (call _ _) _) _ |- _ =>
        let H' := fresh H in
        apply returns_bind in H as (? & H & H')
    end.

(** X2.  [POST] starts the model only for a request that is cleared: the body
    is valid, the caller is signed in and within the daily quota, the chat is
    new or the caller's own, the user's message has been saved and the stream
    id has been registered. *)
Theorem POST_starts_model_when_cleared :
  forall (env : Env) (request : Request),
    traces (invokedWith (fun _ => Cleared env request)) (POST env request).
Proof.
  intros env request. traces_walk; try exact I.
  returned. cbn.
  match goal with
  | Hbody : req_body request = Ok ?rb, Huser : session_user _ = Some ?u,
    Hcount : getMessageCountByUserId env _ _ = Ok ?n |- _ =>
      exists rb, u, n
  end.
  repeat match goal with x : unit |- _ => destruct x end.
  repeat split; try assumption.
  - unfold caller.
    match goal with Hauth : auth env = _ |- _ => now rewrite Hauth end.
  - match goal with
    | Hgt : (_ >? _)%Z = false |- _ =>
        rewrite Z.gtb_ltb in Hgt; now apply Z.ltb_ge in Hgt
    end.
Qed.

Lemma returns_throw {A} (e : Exn) (a : A) : returns (throw e) a -> False.
Proof. intros (w & w1 & H). discriminate. Qed.

Lemma returns_emit_bind {A} (ev : Event) (k : unit -> M A) (a : A) :
  returns (bind (emit ev) k) a -> returns (k tt) a.
Proof.
  intros H. apply returns_bind in H as ([] & _ & H). exact H.
Qed.

Lemma generateTitle_returns_nonempty (env : Env) (message : UIMessage)
    (title : string) :
  returns (generateTitleFromUserMessage env message) title -> title <> "".
Proof.
  intros (w & w1 & H). rewrite generateTitle_run in H.
  destruct (generateText env message) as [v|e].
  - destruct (invalidTitle v) eqn:Hv.
    + injection H as <- _. apply fallbackTitle_nonempty.
    + injection H as <- _.
      destruct v as [ | |b|n|s| ];
        try (rewrite invalidTitle_other in Hv by discriminate; discriminate).
      rewrite invalidTitle_string in Hv.
      apply orb_false_iff in Hv as [Hs _]. apply negb_false_iff in Hs.
      now apply string_truthy_nonempty.
  - injection H as <- _. apply fallbackTitle_nonempty.
Qed.

(** Follows a step that chose its result by tests, down to the result. *)
Ltac settle H :=
  repeat first
    [ apply returns_ret in H
    | apply returns_throw in H; contradiction
    | apply returns_emit_bind in H; cbv beta in H
    | match type of H with
      | returns (match ?x with _ => _ end) _ => destruct x eqn:?
      end ].

(** X4.  [POST] asks the title model and saves a chat only when the chat of
    the request does not exist yet; the chat is then saved under the id of
    the request, for the caller, with a non-empty title and the visibility
    the request selected. *)
Theorem POST_creates_chat_for_caller :
  forall (env : Env) (request : Request),
    traces (createsFor env request) (POST env request).
Proof.
  intros env request. traces_walk; try exact I.
  - returned. cbn. eexists. repeat split; eassumption.
  - returned. cbn.
    match goal with
    | Ht : returns (generateTitleFromUserMessage _ _) _ |- _ =>
        apply generateTitle_returns_nonempty in Ht
    end.
    do 2 eexists. repeat split; try eassumption; try reflexivity.
    unfold caller.
    match goal with Hauth : auth env = _ |- _ => now rewrite Hauth end.
Qed.

(** X5.  Every save of messages by [POST] is one row in the chat of the
    request: the user's message, or (from [onFinish]) a row with a non-empty
    id, at least one part and the time of the end of the model run. *)
Theorem POST_saves_into_request_chat :
  forall (env : Env) (request : Request),
    traces (savesFor env request) (POST env request).
Proof.
  intros env request. traces_walk; try exact I.
  all: cbn; do 2 eexists;
    (split; [eassumption|]); (split; [reflexivity|]);
    (split; [reflexivity|]).
  1: now left.
  all: right; cbn;
    repeat match goal with
      | H : returns (match _ with _ => _ end) _ |- _ => settle H; subst
      end.
  all: try (split; [|split; [discriminate|reflexivity]]).
  all: match goal with
       | H : string_truthy _ = true |- _ =>
           now apply string_truthy_nonempty
       end.
Qed.

(** ** Further results: what the handlers return *)

Section Yields.

Context {A : Type} {Q : A -> Prop}.

Lemma yields_ret (a : A) : Q a -> yields Q (ret a).
Proof. intros H a' Hret. apply returns_ret in Hret. now subst. Qed.

Lemma yields_throw (e : Exn) : yields Q (throw e).
Proof. intros a Hret. now apply returns_throw in Hret. Qed.

Lemma yields_bind {B} (m : M B) (k : B -> M A) :
  (forall b, returns m b -> yields Q (k b)) -> yields Q (bind m k).
Proof.
  intros Hk a Hret. apply returns_bind in Hret as (b & Hm & Hkb).
  exact (Hk b Hm a Hkb).
Qed.

Lemma yields_try_catch (m : M A) (h : Exn -> M A) :
  yields Q m -> (forall e, throws m e -> yields Q (h e)) ->
  yields Q (try_catch m h).
Proof.
  intros Hm Hh a (w & w1 & H). unfold try_catch in H.
  destruct (m w) as [[a'|e] w'] eqn:Hrun.
  - injection H as -> ->. apply Hm. now exists w, w1.
  - apply (Hh e); [now exists w, w'|now exists w', w1].
Qed.

End Yields.

(** What a [try]/[catch] returned came from the body or from the handler. *)
Lemma returns_try_catch {A} (m : M A) (h : Exn -> M A) (a : A) :
  returns (try_catch m h) a ->
  returns m a \/ exists e, throws m e /\ returns (h e) a.
Proof.
  intros (w & w1 & H). unfold try_catch in H.
  destruct (m w) as [[a'|e] w'] eqn:Hrun.
  - injection H as -> ->. left. now exists w, w1.
  - right. exists e. split; [now exists w, w'|now exists w', w1].
Qed.

(** Walks through a handler down to each [return]. *)
Ltac yields_walk :=
  repeat first
    [ apply yields_throw
    | apply yields_bind; intros ? ?
    | apply yields_try_catch; [|intros ? ?]
    | match goal with
      | |- yields _ (match ?x with _ => _ end) =>
          first [is_var x; destruct x | destruct x eqn:?]
      | |- yields _ (let _ := _ in _) => cbv zeta
      | |- yields _ (replay _ _ _) => unfold replay
      | |- yields _ (deliver _ _ _) => unfold deliver
      | |- yields _ (ensureChat _ _ _) => unfold ensureChat
      | |- yields _ (POST _ _) => unfold POST
      | |- yields _ (GET _ _) => unfold GET
      end
    | apply yields_ret ].

Lemma ensureChat_refuses (env : Env) (u : User) (requestBody : PostRequestBody) :
  yields (fun stop => match stop with
                      | Some response =>
                          response = ErrorResponse "forbidden:chat"
                      | None => True
                      end)
         (ensureChat env u requestBody).
Proof. yields_walk; first [exact I | reflexivity]. Qed.

Lemma prepare_refuses (env : Env) (request : Request)
    (requestBody : PostRequestBody) :
  yields (fun staged => match staged with
                        | inl response => exists code,
                            response = ErrorResponse code
                        | inr _ => True
                        end)
         (prepare env request requestBody).
Proof.
  unfold prepare. yields_walk; try exact I; try (eexists; reflexivity).
  match goal with
  | H : returns (ensureChat _ _ _) (Some ?r) |- _ =>
      apply ensureChat_refuses in H; subst r
  end.
  eexists; reflexivity.
Qed.

(** X1.  [POST] answers every request, whatever its calls do: it never
    throws, and its answer is an error of the application, the generic 500
    response, or a response with status 200. *)
Theorem POST_always_answers :
  forall (env : Env) (request : Request) (w : World),
  exists response w',
    POST env request w = (Ok response, w') /\ answerOfPOST response.
Proof.
  intros env request w.
  assert (Hall : yields answerOfPOST (POST env request)).
  { yields_walk;
      try match goal with
        | H : returns (prepare _ _ _) (inl ?r) |- _ =>
            apply prepare_refuses in H; destruct H as [code ->]
        end;
      unfold answerOfPOST, toResponse;
      try match goal with
        | |- context [if ?b then ResumableBody _ _ else NullBody] =>
            destruct b
        end;
      first
        [ solve [left; eexists; reflexivity]
        | solve [right; left; reflexivity]
        | solve [right; right; left; eexists; reflexivity]
        | solve [do 3 right; left; do 2 eexists; reflexivity]
        | solve [do 4 right; reflexivity] ]. }
  destruct (POST_never_throws env request w) as (response & w' & Hrun).
  exists response, w'. split; [exact Hrun|].
  apply Hall. now exists w, w'.
Qed.

Lemma rev_cons_inv {A} (l : list A) (x : A) (rest : list A) :
  rev l = x :: rest -> l = (rev rest ++ [x])%list.
Proof.
  intros H. rewrite <- (rev_involutive l), H. reflexivity.
Qed.

(** X9.  A data stream that [GET] builds itself comes with status 200 and is
    empty or holds exactly one part: the last message of the chat named by
    the request, an assistant message, and only for a signed-in caller who
    may read that chat (it is public or the caller's own). *)
Theorem GET_replays_for_readers :
  forall (env : Env) (request : Request) (w : World) (stream : DataStream)
         (status : Z) (contentType : option string),
    fst (GET env request w)
      = Ok (MkResponse (StreamBody stream) status contentType) ->
    status = 200%Z /\ replayOfGET env request stream.
Proof.
  intros env request w stream status contentType Hrun.
  assert (Hall : yields
    (fun response =>
       match response with
       | MkResponse (StreamBody s) st _ =>
           st = 200%Z /\ replayOfGET env request s
       | _ => True
       end) (GET env request)).
  { yields_walk; try exact I; try (split; [reflexivity|now left]).
    - split; [reflexivity|]. right.
      match goal with
      | Hlooked : returns (try_catch _ _) (inl (Some ?chat)),
        Hrev : rev ?messages = ?m :: ?rest,
        Hparam : param (req_chatId request) = Some ?chatId,
        Huser : _ = Some ?u |- _ =>
          exists chatId, u, chat, (rev rest), m;
          apply rev_cons_inv in Hrev; subst messages;
          apply returns_try_catch in Hlooked as [Hlooked|(e & _ & Hlooked)];
          [ apply returns_bind in Hlooked as (found & Hlooked & Hfound);
            apply returns_ret in Hfound; injection Hfound as ->
          | apply returns_ret in Hlooked; discriminate ]
      end.
      returned.
      repeat split; try assumption.
      + unfold caller.
        match goal with
        | Hauth : auth env = Ok ?b |- _ => rewrite Hauth; now destruct b
        end.
      + match goal with
        | Hgate : (_ && negb (String.eqb ?a ?b))%bool = false |- _ =>
            destruct (chat_visibility c); [|now left];
            destruct (String.eqb_spec a b); [now right|discriminate]
        end.
      + match goal with
        | Hrole : negb (String.eqb ?a ?b) = false |- _ =>
            destruct (String.eqb_spec a b); [assumption|discriminate]
        end.
    - match goal with
      | Hlooked : returns (try_catch _ _) (inr ?r) |- _ =>
          apply returns_try_catch in Hlooked as [Hlooked|(e & _ & Hlooked)];
          [ apply returns_bind in Hlooked as (found & _ & Hfound);
            apply returns_ret in Hfound; discriminate
          | apply returns_ret in Hlooked; injection Hlooked as -> ]
      end.
      exact I. }
  apply (Hall (MkResponse (StreamBody stream) status contentType)).
  exists w, (snd (GET env request w)).
  rewrite <- Hrun. now destruct (GET env request w).
Qed.

(** X10.  [DELETE] writes nothing but the deletion itself, and it deletes
    only the chat named by the request, after finding it and finding the
    signed-in caller to be its owner. *)
Theorem DELETE_deletes_own_chat_only :
  forall (env : Env) (request : Request),
    traces (deletesOwn env request) (DELETE env request).
Proof.
  intros env request. traces_walk; try exact I.
  returned. cbn.
  match goal with
  | Hparam : param (req_id request) = Some ?id,
    Huser : _ = Some ?u,
    Hchat : getChatById env _ = Ok (Some ?chat) |- _ =>
      exists u, chat
  end.
  repeat split; try assumption.
  - unfold caller.
    match goal with
    | Hauth : auth env = Ok ?b |- _ => rewrite Hauth; now destruct b
    end.
  - match goal with
    | Hown : negb (String.eqb ?a ?b) = false |- _ =>
        destruct (String.eqb_spec a b); [assumption|discriminate]
    end.
Qed.

(** X11.  When the signed-in caller owns the chat named by the request,
    whatever its visibility, [DELETE] calls [deleteChatById].  If that hands
    back the deleted chat, the answer is status 200 with the chat as JSON; if
    it hands back no row, [Response.json] throws and the [TypeError] leaves
    the handler, after the deletion was asked for; if the deletion fails, its
    exception leaves the handler. *)
Theorem DELETE_by_owner :
  forall (env : Env) (request : Request) (w : World) (id : string)
         (u : User) (chat : Chat),
    param (req_id request) = Some id ->
    caller env = Some u ->
    getChatById env id = Ok (Some chat) ->
    chat_userId chat = user_id u ->
    DELETE env request w =
      (match deleteChatById env id with
       | Ok (Some deletedChat) =>
           Ok (MkResponse (JsonBody (JsonOfChat (Some deletedChat))) 200
                          (Some "application/json"))
       | Ok None => Throw (Error "Value is not JSON serializable")
       | Throw e => Throw e
       end,
       extend w [Auth; GetChatById id; DeleteChatById id]).
Proof.
  intros env request w id u chat Hparam Hcaller Hchat Hown.
  destruct (caller_session _ _ Hcaller) as (session & Hauth & Huser).
  unfold DELETE. rewrite Hparam.
  unfold bind at 1. rewrite call_run, Hauth. cbv beta iota. rewrite Huser.
  unfold bind at 1. rewrite call_run, Hchat. cbv beta iota.
  rewrite Hown, String.eqb_refl. cbn [negb].
  unfold bind. rewrite call_run.
  destruct (deleteChatById env id) as [[deleted|]|e];
    cbv beta iota; unfold ret, throw; now worlds.
Qed.

(** X12.  [ensureUser] never throws, whatever the user table does.  It looks
    up the user of the session and inserts a row only when the lookup found
    none: under the user's id, with a non-empty email (the session's, or a
    generated one).  It makes no other call. *)
Theorem ensureUser_inserts_missing_user :
  forall (env : Env) (u : User) (w : World),
  exists evs,
    ensureUser env u w = (Ok tt, extend w evs)
    /\ Forall (insertsMissing env u) evs.
Proof.
  intros env u w.
  unfold ensureUser, try_catch, bind, call, emit, lift, ret. cbn.
  destruct (selectUser env (user_id u)) as [[|existing more]|e] eqn:Hselect;
    cbn.
  - assert (Hemail :
      match user_email u with
      | Some e => if string_truthy e then e
                  else "user-" ++ decimal (now env) ++ "@example.com"
      | None => "user-" ++ decimal (now env) ++ "@example.com"
      end <> "").
    { destruct (user_email u) as [e|]; [|discriminate].
      destruct (string_truthy e) eqn:He; [|discriminate].
      now apply string_truthy_nonempty. }
    match goal with
    | |- context [insertUser env ?i ?m] =>
        destruct (insertUser env i m) as [[]|e]
    end; cbn; worlds;
      (eexists; split; [reflexivity|]);
      repeat constructor; assumption.
  - worlds. eexists; split; [reflexivity|]; repeat constructor.
  - worlds. eexists; split; [reflexivity|]; repeat constructor.
Qed.

(** X13.  A title with something other than whitespace in it is returned
    exactly as the model gave it (it is tested trimmed, returned untrimmed),
    after one call to the title model. *)
Theorem generateTitle_returns_model_title :
  forall (env : Env) (message : UIMessage) (w : World) (s : string),
    generateText env message = Ok (JSString s) ->
    trim s <> "" ->
    generateTitleFromUserMessage env message w = (Ok s, titled w message).
Proof.
  intros env message w s Hgen Htrim.
  rewrite generateTitle_run, Hgen, invalidTitle_string.
  assert (s <> "") as Hs by (intros ->; apply Htrim; reflexivity).
  unfold string_truthy.
  destruct (String.eqb_spec s ""); [contradiction|].
  destruct (String.eqb_spec (trim s) ""); [contradiction|].
  reflexivity.
Qed.

(** X7.  [getStreamContext] never throws and returns the handle it leaves in
    [globalStreamContext].  It returns no handle exactly when none was there
    and the creation failed: a failed creation leaves no handle behind.  Once
    a handle is there, every later call returns that same handle without any
    outward call, even where creating one would fail.  After a failed
    creation the next call tries again, and returns the new handle if the
    creation now succeeds. *)
Theorem getStreamContext_keeps_handle :
  forall (env : Env) (w : World),
  exists handle w1,
    getStreamContext env w = (Ok handle, w1)
    /\ globalStreamContext w1 = handle
    /\ (handle = None <-> Unavailable env w)
    /\ (handle <> None ->
        forall env', getStreamContext env' w1 = (Ok handle, w1))
    /\ (handle = None ->
        forall env' c,
          createResumableStreamContext env' = Ok c ->
          getStreamContext env' w1 =
            (Ok (Some c),
             {| globalStreamContext := Some c;
                trace := trace w1 ++ [CreateResumableStreamContext] |})).
Proof.
  intros env w.
  assert (Hkept : forall env' c w1,
    globalStreamContext w1 = Some c ->
    getStreamContext env' w1 = (Ok (Some c), w1)).
  { intros env' c w1 Hc. unfold getStreamContext, getGlobal, bind.
    rewrite Hc. cbn. now rewrite Hc. }
  assert (Hagain : forall env' c w1,
    globalStreamContext w1 = None ->
    createResumableStreamContext env' = Ok c ->
    getStreamContext env' w1 =
      (Ok (Some c),
       {| globalStreamContext := Some c;
          trace := trace w1 ++ [CreateResumableStreamContext] |})).
  { intros env' c w1 Hnone Hc. unfold getStreamContext, getGlobal, bind.
    rewrite Hnone. unfold try_catch, call, bind, emit, lift, setGlobal.
    rewrite Hc. reflexivity. }
  destruct (registry_cases env w) as [Havail|Hun].
  - destruct (getStreamContext_available _ _ Havail) as (c & evs & Hrun & _).
    do 2 eexists. split; [exact Hrun|]. split; [reflexivity|].
    split; [|split; [|discriminate]].
    + split; [discriminate|]. intros [Hnone [e He]].
      destruct Havail as [[c' Hc']|[c' Hc']]; congruence.
    + intros _ env'. now apply Hkept.
  - destruct (getStreamContext_unavailable _ _ Hun) as (evs & Hrun & _).
    do 2 eexists. split; [exact Hrun|]. split; [exact (proj1 Hun)|].
    split; [|split].
    + split; [intros _; exact Hun|intros _; reflexivity].
    + intros Hne. now destruct Hne.
    + intros _ env' c Hc. apply Hagain; [exact (proj1 Hun)|exact Hc].
Qed.

(** ** Further results: calls that are certain *)

Section Calls.

Variable ev : Event.

Lemma calls_call {A} (r : Result A) : calls ev (call ev r).
Proof. intros w. exists [ev]. split; [reflexivity|]. now left. Qed.

Lemma calls_bind_here {A B} (m : M A) (k : A -> M B) :
  calls ev m -> (forall a, traces (fun _ => True) (k a)) ->
  calls ev (bind m k).
Proof.
  intros Hm Hk w. destruct (Hm w) as (evs & Hw & Hin).
  unfold bind. destruct (m w) as [[a|e] w1]; cbn in Hw.
  - destruct (Hk a w1) as (evs' & Hw' & _).
    exists (evs ++ evs')%list. rewrite Hw', Hw, app_assoc.
    split; [reflexivity|]. apply in_or_app. now left.
  - now exists evs.
Qed.

Lemma calls_bind_later {A B} (m : M A) (k : A -> M B) :
  traces (fun _ => True) m ->
  (forall w, exists a w1, m w = (Ok a, w1)) ->
  (forall a, returns m a -> calls ev (k a)) ->
  calls ev (bind m k).
Proof.
  intros Hm Hok Hk w. destruct (Hm w) as (evs & Hw & _).
  destruct (Hok w) as (a & w1 & Hrun).
  unfold bind. rewrite Hrun in *. cbn in Hw.
  destruct (Hk a (ex_intro _ w (ex_intro _ w1 Hrun)) w1)
    as (evs' & Hw' & Hin).
  exists (evs ++ evs')%list. rewrite Hw', Hw, app_assoc.
  split; [reflexivity|]. apply in_or_app. now right.
Qed.

Lemma calls_try_catch {A} (m : M A) (h : Exn -> M A) :
  calls ev m -> (forall e, traces (fun _ => True) (h e)) ->
  calls ev (try_catch m h).
Proof.
  intros Hm Hh w. destruct (Hm w) as (evs & Hw & Hin).
  unfold try_catch. destruct (m w) as [[a|e] w1]; cbn in Hw.
  - now exists evs.
  - destruct (Hh e w1) as (evs' & Hw' & _).
    exists (evs ++ evs')%list. rewrite Hw', Hw, app_assoc.
    split; [reflexivity|]. apply in_or_app. now left.
Qed.

End Calls.

(** X6.  For a valid [POST] of a signed-in caller whose messages of the last
    24 hours have been counted, the chat of the request is looked up exactly
    when the count does not exceed the daily maximum of the caller's tier: a
    caller who has reached the maximum, and not passed it, is still
    served. *)
Theorem POST_quota_boundary :
  forall (env : Env) (request : Request) (requestBody : PostRequestBody)
         (u : User) (messageCount : Z) (w : World) (evs : list Event),
    req_body request = Ok requestBody ->
    caller env = Some u ->
    getMessageCountByUserId env (user_id u) 24 = Ok messageCount ->
    trace (snd (POST env request w)) = (trace w ++ evs)%list ->
    (In (GetChatById (body_id requestBody)) evs
     <-> (messageCount <=
            maxMessagesPerDay (entitlementsByUserType env (user_type u)))%Z).
Proof.
  intros env request requestBody u messageCount w evs
    Hbody Hcaller Hcount Htrace.
  destruct (caller_session _ _ Hcaller) as (session & Hauth & Huser).
  split.
  - intros Hin.
    assert (Hall : traces
      (fun ev => match ev with
                 | GetChatById _ =>
                     (messageCount <=
                        maxMessagesPerDay
                          (entitlementsByUserType env (user_type u)))%Z
                 | _ => True
                 end) (POST env request)).
    { traces_walk; try exact I. returned.
      match goal with
      | Hauth' : auth env = Ok ?b, Hu : session_user _ = Some ?u',
        Hgt : (_ >? _)%Z = false |- _ =>
          rewrite Hauth in Hauth'; injection Hauth' as <-;
          rewrite Huser in Hu; injection Hu as <-;
          rewrite Z.gtb_ltb in Hgt; apply Z.ltb_ge in Hgt
      end.
      match goal with
      | Hcount' : getMessageCountByUserId env _ _ = Ok ?n |- _ =>
          rewrite Hcount in Hcount'; now injection Hcount' as <-
      end. }
    exact (traces_In _ _ _ _ Hall Htrace Hin).
  - intros Hwithin.
    assert (Hcalls : calls (GetChatById (body_id requestBody))
                           (POST env request)).
    { unfold POST. rewrite Hbody.
      apply calls_try_catch; [|intros e; traces_walk; exact I].
      unfold handle.
      apply calls_bind_here; [|intros staged; traces_walk; exact I].
      unfold prepare.
      apply calls_bind_later;
        [ traces_walk; exact I
        | intros w0; rewrite call_run, Hauth; now do 2 eexists
        | intros found Hfound ].
      apply returns_call in Hfound. rewrite Hauth in Hfound.
      injection Hfound as <-. rewrite Huser.
      apply calls_bind_later;
        [ traces_walk; exact I
        | intros w0; destruct (ensureUser_run env u w0) as (evs0 & Hrun & _);
          rewrite Hrun; now do 2 eexists
        | intros [] _ ].
      apply calls_bind_later;
        [ traces_walk; exact I
        | intros w0; rewrite call_run, Hcount; now do 2 eexists
        | intros counted Hcounted ].
      apply returns_call in Hcounted. rewrite Hcount in Hcounted.
      injection Hcounted as <-.
      assert ((messageCount >?
               maxMessagesPerDay (entitlementsByUserType env (user_type u)))%Z
              = false) as ->
        by (rewrite Z.gtb_ltb; now apply Z.ltb_ge).
      apply calls_bind_here; [|intros stop; traces_walk; exact I].
      unfold ensureChat. cbv zeta.
      apply calls_bind_here; [|intros chat; traces_walk; exact I].
      apply calls_call. }
    destruct (Hcalls w) as (evs' & Htrace' & Hin).
    rewrite Htrace in Htrace'. apply app_inv_head in Htrace'. now subst evs'.
Qed.

(** ** Further results: the pure helpers and the message action *)

(** X14.  [updateDocumentPrompt] is empty exactly for the kinds other than
    ['text'], ['code'] and ['sheet'] (an image, say); for those three it is a
    heading, an empty line, the current content ([null] as the word) and a
    line end. *)
Theorem updateDocumentPrompt_by_kind :
  forall (currentContent : option string) (type : string),
    (updateDocumentPrompt currentContent type = ""
     <-> type <> "text" /\ type <> "code" /\ type <> "sheet")
    /\ (updateDocumentPrompt currentContent type = ""
        \/ exists heading,
             heading <> ""
             /\ updateDocumentPrompt currentContent type =
                  heading ++ nl ++ nl ++ interpolateNull currentContent ++ nl).
Proof.
  intros currentContent type. unfold updateDocumentPrompt.
  destruct (String.eqb_spec type "text") as [->|Htext].
  { split.
    - split; [discriminate|]. intros (H & _). now destruct H.
    - right. eexists. split; [|reflexivity]. discriminate. }
  destruct (String.eqb_spec type "code") as [->|Hcode].
  { split.
    - split; [discriminate|]. intros (_ & H & _). now destruct H.
    - right. eexists. split; [|reflexivity]. discriminate. }
  destruct (String.eqb_spec type "sheet") as [->|Hsheet].
  { split.
    - split; [discriminate|]. intros (_ & _ & H). now destruct H.
    - right. eexists. split; [|reflexivity]. discriminate. }
  split; [|now left]. split; [auto|reflexivity].
Qed.

(** X15.  [LangDir] answers ['rtl'] for the locale ['fa'] and for no other,
    and ['ltr'] for every other locale, known or not. *)
Theorem LangDir_rtl_only_for_fa :
  forall (locale : string),
    (LangDir locale = "rtl" <-> locale = "fa")
    /\ (LangDir locale = "ltr" <-> locale <> "fa").
Proof.
  intros locale. unfold LangDir.
  destruct (String.eqb_spec locale "en") as [->|Hen].
  { split; split; intros H; first [discriminate | reflexivity]. }
  destruct (String.eqb_spec locale "fa") as [->|Hfa].
  { split; split; intros H; try discriminate; try reflexivity.
    now destruct H. }
  split; split; intros H; try discriminate; try reflexivity; try assumption.
  now destruct Hfa.
Qed.

Module CodeEditorFacts.

Import CodeEditor.

Lemma status_eqb_sym (a b : Status) : status_eqb a b = status_eqb b a.
Proof. now destruct a, b. Qed.

Lemma dir_eqb_sym (a b : option Direction) : dir_eqb a b = dir_eqb b a.
Proof. destruct a as [[|]|], b as [[|]|]; reflexivity. Qed.

Lemma dir_eqb_refl (a : option Direction) : dir_eqb a a = true.
Proof. destruct a as [[|]|]; reflexivity. Qed.

Lemma lang_eqb_sym (a b : option string) : lang_eqb a b = lang_eqb b a.
Proof. destruct a, b; cbn; try reflexivity. apply String.eqb_sym. Qed.

Lemma lang_eqb_refl (a : option string) : lang_eqb a a = true.
Proof. destruct a; cbn; [apply String.eqb_refl|reflexivity]. Qed.

Lemma bool_eqb_sym (a b : bool) : Bool.eqb a b = Bool.eqb b a.
Proof. now destruct a, b. Qed.

(** The props [p] with another [onSaveContent] callback. *)
Lemma areEqual_ignores_callback (p q : EditorProps) (f : nat) :
  areEqual p
    {| content := content q; onSaveContent := f; status := status q;
       isCurrentVersion := isCurrentVersion q;
       currentVersionIndex := currentVersionIndex q;
       suggestions := suggestions q; dir := dir q; lang := lang q |}
  = areEqual p q.
Proof. reflexivity. Qed.

(** X16.  The comparison [areEqual] that decides whether the code editor is
    rendered again does not depend on the order of its two arguments; props
    are equal to themselves exactly when the editor is idle, so while a
    document is streaming the editor is always rendered again; and two
    streaming props are never equal. *)
Theorem areEqual_symmetric_and_idle :
  forall (p q : EditorProps),
    areEqual p q = areEqual q p
    /\ (areEqual p p = true <-> status p = idle)
    /\ (areEqual p q = true -> status p = idle \/ status q = idle).
Proof.
  intros p q. split; [|split].
  - unfold areEqual.
    rewrite (Nat.eqb_sym (suggestions q)), (Z.eqb_sym (currentVersionIndex q)),
      (bool_eqb_sym (isCurrentVersion q)), (String.eqb_sym (content q)),
      (dir_eqb_sym (dir q)), (lang_eqb_sym (lang q)),
      (andb_comm (status_eqb (status q) streaming)).
    reflexivity.
  - unfold areEqual.
    rewrite Nat.eqb_refl, Z.eqb_refl, Bool.eqb_reflx, String.eqb_refl,
      dir_eqb_refl, lang_eqb_refl.
    cbn [negb]. destruct (status p); cbn; split; intros H;
      first [reflexivity | discriminate].
  - unfold areEqual. intros H.
    destruct (status p), (status q); auto.
    cbn in H.
    repeat match type of H with
           | (if ?c then false else _) = true => destruct c
           end; discriminate.
Qed.

End CodeEditorFacts.

Module ActionsFacts.

Import Actions.

(** X17.  [deleteTrailingMessages] deletes only after it has found the
    message: it then deletes in the chat of that message, from the time of
    that message on, and in no other chat.  For an id with no message it
    throws a [TypeError] after the lookup, and nothing is deleted. *)
Theorem deleteTrailingMessages_needs_message :
  forall (db : Queries) (id : string) (log : list Call),
    (getMessageById db id = Ok [] ->
     deleteTrailingMessages db id log =
       (Throw (Error "Cannot read properties of undefined (reading 'chatId')"),
        (log ++ [GetMessageById id])%list))
    /\ (forall chatId timestamp,
          In (DeleteMessagesByChatIdAfterTimestamp chatId timestamp)
             (snd (deleteTrailingMessages db id log)) ->
          In (DeleteMessagesByChatIdAfterTimestamp chatId timestamp) log
          \/ exists message rest,
               getMessageById db id = Ok (message :: rest)
               /\ chatId = msg_chatId message
               /\ timestamp = msg_createdAt message).
Proof.
  intros db id log. unfold deleteTrailingMessages, andThen, query, raise.
  split.
  - intros ->. reflexivity.
  - intros chatId timestamp.
    destruct (getMessageById db id) as [[|message rest]|e]; cbn.
    + intros H. apply in_app_or in H as [H|[H|[]]]; [now left|discriminate].
    + intros H. apply in_app_or in H as [H|[H|[]]].
      * apply in_app_or in H as [H|[H|[]]]; [now left|discriminate].
      * injection H as <- <-. right. now exists message, rest.
    + intros H. apply in_app_or in H as [H|[H|[]]]; [now left|discriminate].
Qed.

End ActionsFacts.

(** ** Further results on the sample deployment *)

(** X6, on a run: Bob, a guest, has sent exactly the 20 messages a guest may
    send in a day; his next request gets as far as the chat lookup. *)
Lemma POST_quota_boundary_run :
  In (GetChatById "c1")
     (trace (snd (POST (deployment (Some bob) 20 None [] true)
                       (post "chat-model") initialWorld))).
Proof.
  apply (proj2 (POST_quota_boundary
                  (deployment (Some bob) 20 None [] true)
                  (post "chat-model") (body "chat-model") bob 20 initialWorld
                  (trace (snd (POST (deployment (Some bob) 20 None [] true)
                                    (post "chat-model") initialWorld)))
                  eq_refl eq_refl eq_refl eq_refl)).
  vm_compute. discriminate.
Defined.

(** X9, on a run: the answer replayed to Bob is the last message of Alice's
    public chat. *)
Lemma GET_replays_for_readers_run :
  replayOfGET (resumed (row "m2" "assistant" 90000)) resume
    [DataPart "append-message" (JsonOfMessage (row "m2" "assistant" 90000))].
Proof.
  exact (proj2 (GET_replays_for_readers
                  (resumed (row "m2" "assistant" 90000)) resume initialWorld
                  [DataPart "append-message"
                     (JsonOfMessage (row "m2" "assistant" 90000))]
                  200 None eq_refl)).
Defined.

(** X11, on a run: Alice deletes her private chat. *)
Lemma DELETE_by_owner_run :
  DELETE (deployment (Some alice) 3 (Some (aliceChat private)) [] true)
         remove initialWorld
    = (Ok (MkResponse (JsonBody (JsonOfChat (Some (aliceChat private)))) 200
                      (Some "application/json")),
       extend initialWorld [Auth; GetChatById "c1"; DeleteChatById "c1"]).
Proof.
  exact (DELETE_by_owner
           (deployment (Some alice) 3 (Some (aliceChat private)) [] true)
           remove initialWorld "c1" alice (aliceChat private)
           eq_refl eq_refl eq_refl eq_refl).
Defined.

(** X13, on a run: a title with blanks around it keeps them. *)
Lemma generateTitle_returns_model_title_run :
  generateTitleFromUserMessage
    (withTitle (Ok (JSString " Hello "))
               (deployment (Some alice) 3 None [] true))
    hello initialWorld
  = (Ok " Hello ", titled initialWorld hello).
Proof.
  apply (generateTitle_returns_model_title
           (withTitle (Ok (JSString " Hello "))
                      (deployment (Some alice) 3 None [] true))
           hello initialWorld " Hello ").
  - reflexivity.
  - vm_compute. discriminate.
Defined.

(** ** Further results: reading a chat, and the hints in the prompt *)

(** What [GET] knows once its chat lookup has given a chat and the gate has
    let the caller through. *)
Ltac reader :=
  cbn;
  match goal with
  | Hlooked : returns (try_catch _ _) (inl (Some ?chat)),
    Hparam : param (req_chatId ?request) = Some ?chatId,
    Huser : _ = Some ?u |- _ =>
      exists u, chat;
      apply returns_try_catch in Hlooked as [Hlooked|(e & _ & Hlooked)];
      [ apply returns_bind in Hlooked as (found & Hlooked & Hfound);
        apply returns_ret in Hfound; injection Hfound as ->
      | apply returns_ret in Hlooked; discriminate ]
  end;
  returned;
  repeat split; try assumption;
  [ unfold caller;
    match goal with
    | Hauth : auth _ = Ok ?b |- _ => rewrite Hauth; now destruct b
    end
  | match goal with
    | Hgate : (match chat_visibility ?c with _ => _ end
               && negb (String.eqb ?a ?b))%bool = false |- _ =>
        destruct (chat_visibility c); [|now left];
        destruct (String.eqb_spec a b); [now right|discriminate]
    end ].

(** X3.  [GET] asks for the stream ids and for the messages of a chat only
    when the chat is the one the request names, it exists, and the signed-in
    caller may read it (it is public or the caller's own). *)
Theorem GET_reads_for_readers :
  forall (env : Env) (request : Request),
    traces (readsFor env request) (GET env request).
Proof.
  intros env request. traces_walk; try exact I; reader.
Qed.

Lemma Contains_self (s : string) : Contains s s.
Proof. exists "", "". cbn. now rewrite append_empty_r. Qed.

Lemma Contains_trans (a b c : string) :
  Contains a b -> Contains b c -> Contains a c.
Proof.
  intros (b1 & b2 & ->) (c1 & c2 & ->).
  exists (c1 ++ b1), (b2 ++ c2). now rewrite !append_assoc.
Qed.

Lemma Contains_line (a b c rest : string) :
  Contains (a ++ b ++ c) (a ++ b ++ c ++ rest).
Proof. exists "", rest. cbn. now rewrite !append_assoc. Qed.

(** X18.  Whatever the model, the system prompt carries the request prompt,
    and with it each of the four hints of the request (latitude, longitude,
    city, country), a missing one as the word [undefined]. *)
Theorem systemPrompt_carries_hints :
  forall (selectedChatModel : string) (hints : Prompts.RequestHints),
    let prompt := Prompts.systemPrompt selectedChatModel hints in
    Contains (Prompts.getRequestPromptFromHints hints) prompt
    /\ Contains ("- lat: " ++ Prompts.interpolate (Prompts.latitude hints) ++ nl)
                prompt
    /\ Contains ("- lon: " ++ Prompts.interpolate (Prompts.longitude hints) ++ nl)
                prompt
    /\ Contains ("- city: " ++ Prompts.interpolate (Prompts.city hints) ++ nl)
                prompt
    /\ Contains ("- country: "
                   ++ Prompts.interpolate (Prompts.country hints) ++ nl)
                prompt.
Proof.
  intros model hints prompt.
  assert (Hreq : Contains (Prompts.getRequestPromptFromHints hints) prompt).
  { subst prompt. unfold Prompts.systemPrompt. cbv zeta.
    destruct (String.eqb model "chat-model-reasoning").
    - do 3 apply Contains_after. apply Contains_self.
    - do 3 apply Contains_after. apply Contains_here. }
  split; [exact Hreq|].
  repeat split; (eapply Contains_trans; [|exact Hreq]);
    unfold Prompts.getRequestPromptFromHints.
  - do 2 apply Contains_after. apply Contains_line.
  - do 5 apply Contains_after. apply Contains_line.
  - do 8 apply Contains_after. apply Contains_line.
  - do 11 apply Contains_after. apply Contains_self.
Qed.
